(** * A model of [shared/bank_api_client.py] (Vigil system)

    The Python module defines [AuthManager] (JWT caching and refresh against
    the user service) and [BankAPIClient] (typed wrappers around the Bank of
    Anthos REST services, with a [kubectl]/[psql] fallback for the
    transaction history).

    The model is a shallow embedding:
    - Python values returned by [response.json()] are the inductive [json];
      Python [None] is [JNull];
    - exceptions are the inductive [exn]; every method runs in a small
      state/exception monad [M] over a [world] that holds the fields of the
      [AuthManager] ([token], [token_expiry]), the reading of
      [datetime.utcnow()] (in microseconds; one reading per call, the time
      spent in network round trips is not modelled) and the log of external actions
      (HTTP requests and shell commands) performed so far.  Mutations made
      before an exception is raised are kept, as in Python;
    - the network and the shell are oracles [http] and [shell] that may
      answer as a function of everything that happened before.

    The module's caller [mcp-server/vigil_mcp_rest_wrapper.py] is modelled
    over the same client: its [/tools/get_transactions] and
    [/tools/authenticate_user] endpoints and its JSON-RPC bridge
    [jsonrpc_handler]. *)

From Stdlib Require Import String Ascii List ZArith NArith Bool Lia Permutation.
Import ListNotations.
Open Scope string_scope.
Open Scope nat_scope.

(** ** Python string helpers *)

Module PyStr.

(** The double-quote character. *)
Definition dq : string := String (ascii_of_nat 34) EmptyString.

(** Python truthiness of a [str]. *)
Definition truthy_str (s : string) : bool :=
  match s with EmptyString => false | _ => true end.

(** [needle in hay] for Python strings. *)
Fixpoint contains (needle hay : string) : bool :=
  prefix needle hay ||
  match hay with
  | EmptyString => false
  | String _ rest => contains needle rest
  end.

(** Decimal rendering of integers, as [str(int)]. *)
Fixpoint digits_aux (fuel : nat) (n : N) (acc : string) : string :=
  match fuel with
  | O => acc
  | S f =>
      let acc' := String (ascii_of_N (48 + N.modulo n 10)) acc in
      if (n <? 10)%N then acc' else digits_aux f (N.div n 10) acc'
  end.

Definition N_to_string (n : N) : string := digits_aux (S (N.size_nat n)) n "".

Definition Z_to_string (z : Z) : string :=
  if (z <? 0)%Z then "-" ++ N_to_string (Z.to_N (- z)) else N_to_string (Z.to_N z).

(** [str.isspace] restricted to ASCII: [\t \n \v \f \r], [\x1c]..[\x1f]
    and the space. *)
Definition is_space (c : ascii) : bool :=
  let n := nat_of_ascii c in
  ((9 <=? n) && (n <=? 13)) || ((28 <=? n) && (n <=? 32)).

Fixpoint lstrip (cs : list ascii) : list ascii :=
  match cs with
  | [] => []
  | c :: r => if is_space c then lstrip r else cs
  end.

(** [str.strip()]. *)
Definition strip (cs : list ascii) : list ascii := rev (lstrip (rev (lstrip cs))).

(** Line boundaries of [str.splitlines] within ASCII, besides [\r]:
    [\n], [\v], [\f], [\x1c], [\x1d], [\x1e]. *)
Definition is_line_break (c : ascii) : bool :=
  let n := nat_of_ascii c in
  (n =? 10) || (n =? 11) || (n =? 12) || (n =? 28) || (n =? 29) || (n =? 30).

(** [str.splitlines()]: [\r\n] counts as one boundary, a trailing
    boundary does not open an empty last line. *)
Fixpoint splitlines_aux (cs cur : list ascii) : list (list ascii) :=
  match cs with
  | [] => match cur with [] => [] | _ => [rev cur] end
  | c :: rest =>
      if Ascii.eqb c "013"%char then
        match rest with
        | c' :: rest' =>
            if Ascii.eqb c' "010"%char then rev cur :: splitlines_aux rest' []
            else rev cur :: splitlines_aux rest []
        | [] => [rev cur]
        end
      else if is_line_break c then rev cur :: splitlines_aux rest []
      else splitlines_aux rest (c :: cur)
  end.

Definition splitlines (cs : list ascii) : list (list ascii) := splitlines_aux cs [].

(** [str.split(',')]. *)
Fixpoint split_comma_aux (cs cur : list ascii) : list (list ascii) :=
  match cs with
  | [] => [rev cur]
  | c :: r =>
      if Ascii.eqb c ","%char then rev cur :: split_comma_aux r []
      else split_comma_aux r (c :: cur)
  end.

Definition split_comma (cs : list ascii) : list (list ascii) := split_comma_aux cs [].

Definition digit_value (c : ascii) : option Z :=
  let n := nat_of_ascii c in
  if (48 <=? n) && (n <=? 57) then Some (Z.of_nat (n - 48)) else None.

(** Digits with single underscores between them, as accepted by [int()]. *)
Fixpoint parse_digits (cs : list ascii) (acc : Z) (after_digit : bool) : option Z :=
  match cs with
  | [] => if after_digit then Some acc else None
  | c :: r =>
      match digit_value c with
      | Some d => parse_digits r (acc * 10 + d) true
      | None =>
          if Ascii.eqb c "_"%char && after_digit then parse_digits r acc false
          else None
      end
  end.

Definition is_digit (c : ascii) : bool :=
  match digit_value c with Some _ => true | None => false end.

(** [sys.get_int_max_str_digits()] of CPython 3.11 (the [python:3.11-slim]
    image of the deployment): [int()] refuses a [str] with more digits. *)
Definition int_max_str_digits : nat := 4300.

(** The digits after the sign: [ValueError] ([None]) beyond
    [int_max_str_digits] digits, as in [PyLong_FromString]. *)
Definition parse_unsigned (cs : list ascii) : option Z :=
  if int_max_str_digits <? length (filter is_digit cs) then None
  else parse_digits cs 0 false.

(** [int(s)] for an ASCII [str]: [None] stands for [ValueError]. *)
Definition py_int (cs : list ascii) : option Z :=
  match strip cs with
  | c :: r =>
      if Ascii.eqb c "-"%char then option_map Z.opp (parse_unsigned r)
      else if Ascii.eqb c "+"%char then parse_unsigned r
      else parse_unsigned (c :: r)
  | [] => None
  end.

(** [shlex.quote]: the safe characters are [\w@%+=:,./-] in ASCII mode. *)
Definition shlex_safe (c : ascii) : bool :=
  let n := nat_of_ascii c in
  ((48 <=? n) && (n <=? 57)) || ((65 <=? n) && (n <=? 90)) ||
  ((97 <=? n) && (n <=? 122)) ||
  existsb (Ascii.eqb c) (list_ascii_of_string "_@%+=:,./-").

Fixpoint shlex_escape (s : string) : string :=
  match s with
  | EmptyString => EmptyString
  | String c r =>
      if Ascii.eqb c "'"%char then "'" ++ dq ++ "'" ++ dq ++ "'" ++ shlex_escape r
      else String c (shlex_escape r)
  end.

Definition shlex_quote (s : string) : string :=
  if String.eqb s "" then "''"
  else if forallb shlex_safe (list_ascii_of_string s) then s
  else "'" ++ shlex_escape s ++ "'".

(** The backslash character. *)
Definition bs : string := String (ascii_of_nat 92) EmptyString.

Definition hex_digit (n : nat) : ascii :=
  ascii_of_nat (if n <? 10 then 48 + n else 87 + n).

(** Two lowercase hexadecimal digits of a character code. *)
Definition hex2 (c : ascii) : string :=
  let n := nat_of_ascii c in
  String (hex_digit (n / 16)) (String (hex_digit (n mod 16)) EmptyString).

(** [str.isprintable] on one character (Latin-1). *)
Definition printable (c : ascii) : bool :=
  let n := nat_of_ascii c in
  negb ((n <? 32) || (n =? 127) || ((128 <=? n) && (n <=? 160)) || (n =? 173)).

(** [repr] of a [str]: single quotes unless the text holds a single quote
    and no double quote. *)
Definition py_repr_str (s : string) : string :=
  let q := if contains "'" s && negb (contains dq s) then dq else "'" in
  let fix esc (s : string) : string :=
    match s with
    | EmptyString => EmptyString
    | String c r =>
        let n := nat_of_ascii c in
        (if n =? 92 then bs ++ bs
         else if String.eqb (String c EmptyString) q then bs ++ q
         else if n =? 9 then bs ++ "t"
         else if n =? 10 then bs ++ "n"
         else if n =? 13 then bs ++ "r"
         else if printable c then String c EmptyString
         else bs ++ "x" ++ hex2 c) ++ esc r
    end in
  q ++ esc s ++ q.

End PyStr.
Import PyStr.

(** ** Python values, exceptions, HTTP and shell *)

Set Warnings "-register-all".

(** A Python [float] as [json.loads] makes it: a finite value, given by its
    [repr], or one of the non-finite values the decoder accepts ([NaN],
    [Infinity], [-Infinity]). *)
Inductive py_float : Type :=
| Finite (repr : string)
| NaN
| PosInf
| NegInf.

(** Values produced by [response.json()]; strings are Latin-1 text. *)
Inductive json : Type :=
| JNull
| JBool (b : bool)
| JInt (z : Z)
| JFloat (f : py_float)
| JStr (s : string)
| JList (l : list json)
| JDict (kv : list (string * json)).

(** Python truthiness of such a value: a float is falsy when it is zero. *)
Definition truthy (j : json) : bool :=
  match j with
  | JNull => false
  | JBool b => b
  | JInt z => negb (Z.eqb z 0)
  | JFloat (Finite r) => negb (String.eqb r "0.0" || String.eqb r "-0.0")
  | JFloat _ => true
  | JStr s => truthy_str s
  | JList l => match l with [] => false | _ => true end
  | JDict kv => match kv with [] => false | _ => true end
  end.

(** [type(v).__name__]. *)
Definition py_type_name (j : json) : string :=
  match j with
  | JNull => "NoneType"
  | JBool _ => "bool"
  | JInt _ => "int"
  | JFloat _ => "float"
  | JStr _ => "str"
  | JList _ => "list"
  | JDict _ => "dict"
  end.

(** [dict.get(k)] on a decoded object: the last binding of a key wins, as
    in [json.loads]. *)
Fixpoint assoc_last {A : Type} (k : string) (kv : list (string * A)) (dflt : option A)
  : option A :=
  match kv with
  | [] => dflt
  | (k', v) :: r => assoc_last k r (if String.eqb k k' then Some v else dflt)
  end.

(** The exceptions raised along the code paths of the module. *)
Inductive exn : Type :=
| RuntimeError (msg : string)
| ValueError (msg : string)
| AttributeError (msg : string)
| KeyError (key : string)
| CookieConflict (msg : string)  (** [httpx.CookieConflict] *)
| OSError (cls msg : string)  (** [OSError] or a subclass, and its [str] *)
| HTTPStatusError (status : Z) (body : string)  (** [raise_for_status] *)
| TransportError (msg : string)  (** [httpx.RequestError]: connection, timeout *)
| JSONDecodeError (msg : string). (** [response.json()] on a malformed body *)

(** [str(e)]. *)
Definition exn_str (e : exn) : string :=
  match e with
  | RuntimeError m | ValueError m | AttributeError m | CookieConflict m | OSError _ m
  | TransportError m | JSONDecodeError m => m
  | KeyError k => py_repr_str k
  | HTTPStatusError s _ => "Client or server error '" ++ Z_to_string s ++ "'"
  end.

(** [type(e).__name__]. *)
Definition exn_class (e : exn) : string :=
  match e with
  | RuntimeError _ => "RuntimeError"
  | ValueError _ => "ValueError"
  | AttributeError _ => "AttributeError"
  | KeyError _ => "KeyError"
  | CookieConflict _ => "CookieConflict"
  | OSError cls _ => cls
  | HTTPStatusError _ _ => "HTTPStatusError"
  | TransportError _ => "RequestError"
  | JSONDecodeError _ => "JSONDecodeError"
  end.

Inductive body : Type :=
| NoBody
| FormBody (kv : list (string * string))
| JsonBody (j : json).

Record request : Type := mkRequest {
  req_method : string;
  req_url : string;
  req_headers : list (string * string);
  req_body : body
}.

(** A cookie as [http.cookiejar] makes it from one [Set-Cookie] header,
    its domain and path defaulted from the request when the header has
    none; a header without [=] gives the value [None]. *)
Record cookie : Type := mkCookie {
  ck_domain : string;
  ck_path : string;
  ck_name : string;
  ck_value : option string
}.

(** A received response.  [cookies] are the cookies of its [Set-Cookie]
    headers, in order, that the default cookie policy accepts and that are
    not already expired; [json_body] is what [response.json()] decodes from
    [text], or the [str] of the error it raises. *)
Record response : Type := mkResponse {
  status_code : Z;
  content_type : option string;
  cookies : list cookie;
  text : string;
  json_body : json + string
}.

Inductive http_outcome : Type :=
| Responded (r : response)
| NoResponse (msg : string).

Record proc_result : Type := mkProc {
  returncode : Z;
  stdout : string;
  stderr : string
}.

(** [asyncio.create_subprocess_shell(cmd)] followed by [communicate()]:
    the process ran, or it could not be started and an [OSError] was
    raised (no file descriptor or process left, no [/bin/sh]). *)
Inductive spawn_outcome : Type :=
| Spawned (p : proc_result)
| SpawnFailed (cls msg : string).

(** External actions, in the order they are performed. *)
Inductive event : Type :=
| EvHttp (r : request)
| EvShell (cmd : string).

Record world : Type := mkWorld {
  w_token : json;          (** [AuthManager.token] *)
  w_expiry : option Z;     (** [AuthManager.token_expiry], microseconds *)
  w_now : Z;               (** the reading of [datetime.utcnow()] *)
  w_log : list event
}.

Inductive result (A : Type) : Type :=
| Ok (a : A)
| Raise (e : exn).
Arguments Ok {A} a.
Arguments Raise {A} e.

(** ** The state/exception monad *)

Definition M (A : Type) : Type := world -> world * result A.

Definition ret {A} (a : A) : M A := fun w => (w, Ok a).

Definition bind {A B} (m : M A) (f : A -> M B) : M B :=
  fun w => match m w with
           | (w', Ok a) => f a w'
           | (w', Raise e) => (w', Raise e)
           end.

Definition raise {A} (e : exn) : M A := fun w => (w, Raise e).

(** A computation that does not touch the world. *)
Definition lift {A} (r : result A) : M A := fun w => (w, r).

(** [try: m except Exception as e: h(e)]. *)
Definition try_except {A} (m : M A) (h : exn -> M A) : M A :=
  fun w => match m w with
           | (w', Ok a) => (w', Ok a)
           | (w', Raise e) => h e w'
           end.

Notation "x <- m ;; k" := (bind m (fun x => k)) (at level 61, m at next level, right associativity).
Notation "m ;;; k" := (bind m (fun _ => k)) (at level 61, right associativity).

Definition gets {A} (f : world -> A) : M A := fun w => (w, Ok (f w)).

Definition utcnow : M Z := gets w_now.

Definition set_token (t : json) : M unit :=
  fun w => (mkWorld t (w_expiry w) (w_now w) (w_log w), Ok tt).

Definition set_expiry (e : Z) : M unit :=
  fun w => (mkWorld (w_token w) (Some e) (w_now w) (w_log w), Ok tt).

Definition log_event (ev : event) (w : world) : world :=
  mkWorld (w_token w) (w_expiry w) (w_now w) (w_log w ++ [ev])%list.

(** [response.json()]. *)
Definition response_json (r : response) : M json :=
  match json_body r with
  | inl j => ret j
  | inr msg => raise (JSONDecodeError msg)
  end.

(** ** Configuration (the defaults of the environment variables) *)

Definition BANK_BASE_URL := "http://userservice:8080".
Definition TRANSACTION_HISTORY_URL := "http://transactionhistory:8080".
Definition LEDGER_WRITER_URL := "http://ledgerwriter:8080".
Definition BALANCES_URL := "http://balancereader:8080".
Definition CONTACTS_URL := "http://contacts:8080".

(** [timedelta(minutes=45)] in microseconds. *)
Definition TOKEN_LIFETIME : Z := (45 * 60 * 1000000)%Z.

(** ** The module's classes, over the network and shell oracles *)

Section Client.

(** Answer of the network to a request, given the actions performed before. *)
Variable http : list event -> request -> http_outcome.
(** Outcome of [asyncio.create_subprocess_shell(cmd)] and [communicate()],
    given the actions performed before ([stdout]/[stderr] already decoded). *)
Variable shell : list event -> string -> spawn_outcome.

(** [await http_client.request(...)]: logs the request, raises on no
    response. *)
Definition http_send (r : request) : M response :=
  fun w =>
    let w' := log_event (EvHttp r) w in
    match http (w_log w) r with
    | Responded resp => (w', Ok resp)
    | NoResponse m => (w', Raise (TransportError m))
    end.

(** Starting the command and waiting for it: the [OSError] of a process
    that cannot be started propagates. *)
Definition run_shell (cmd : string) : M proc_result :=
  fun w =>
    let w' := log_event (EvShell cmd) w in
    match shell (w_log w) cmd with
    | Spawned p => (w', Ok p)
    | SpawnFailed cls msg => (w', Raise (OSError cls msg))
    end.

(** *** AuthManager *)

Definition login_url : string := BANK_BASE_URL ++ "/login".

Definition form_login_request (username password : string) : request :=
  mkRequest "POST" login_url
    [("Content-Type", "application/x-www-form-urlencoded")]
    (FormBody [("username", username); ("password", password)]).

Definition json_login_request (username password : string) : request :=
  mkRequest "POST" login_url []
    (JsonBody (JDict [("username", JStr username); ("password", JStr password)])).

(** [CookieJar.set_cookie]: [self._cookies[domain][path][name] = cookie],
    a later cookie replacing one of the same domain, path and name. *)
Definition same_cookie_key (a b : cookie) : bool :=
  String.eqb (ck_domain a) (ck_domain b) && String.eqb (ck_path a) (ck_path b)
  && String.eqb (ck_name a) (ck_name b).

Fixpoint jar_set (c : cookie) (jar : list cookie) : list cookie :=
  match jar with
  | [] => [c]
  | c' :: r => if same_cookie_key c c' then c :: r else c' :: jar_set c r
  end.

(** [response.cookies]: a new [httpx.Cookies] jar into which the cookies of
    the response are set in order. *)
Definition extract_cookies (cs : list cookie) : list cookie :=
  fold_left (fun jar c => jar_set c jar) cs [].

(** Iterating a [CookieJar] ([deepvalues]) visits the domains, then the
    paths, then the names in sorted order. *)
Definition cookie_key_lt (a b : cookie) : bool :=
  match String.compare (ck_domain a) (ck_domain b) with
  | Lt => true
  | Gt => false
  | Eq =>
      match String.compare (ck_path a) (ck_path b) with
      | Lt => true
      | Gt => false
      | Eq => String.ltb (ck_name a) (ck_name b)
      end
  end.

Fixpoint insert_cookie (c : cookie) (l : list cookie) : list cookie :=
  match l with
  | [] => [c]
  | c' :: r => if cookie_key_lt c c' then c :: l else c' :: insert_cookie c r
  end.

Definition jar_iter (jar : list cookie) : list cookie := fold_right insert_cookie [] jar.

(** [Cookies.get(name)] of [httpx]: a cookie of that name met after one
    whose value is not [None] raises [CookieConflict]. *)
Fixpoint cookies_get (name : string) (cs : list cookie) (value : option string)
  : result (option string) :=
  match cs with
  | [] => Ok value
  | c :: r =>
      if String.eqb (ck_name c) name then
        match value with
        | Some _ => Raise (CookieConflict ("Multiple cookies exist with name=" ++ name))
        | None => cookies_get name r (ck_value c)
        end
      else cookies_get name r value
  end.

(** [Cookies.__getitem__]: [KeyError] when [get] gives [None]. *)
Definition cookies_getitem (name : string) (cs : list cookie) : result string :=
  match cookies_get name cs None with
  | Ok (Some v) => Ok v
  | Ok None => Raise (KeyError name)
  | Raise e => Raise e
  end.

(** [token = None; if response.status_code == 302: for cookie_name in
    response.cookies: if cookie_name == 'token': token =
    response.cookies['token']; break] ([""] stands for [None]: both are
    falsy). *)
Definition login_cookie_token (response : response) : result string :=
  if Z.eqb (status_code response) 302 then
    let jar := jar_iter (extract_cookies (cookies response)) in
    if existsb (fun c => String.eqb (ck_name c) "token") jar
    then cookies_getitem "token" jar
    else Ok ""
  else Ok "".

(** [data.get('token')]: [AttributeError] when [data] is not a dict. *)
Definition json_get (data : json) (k : string) : M json :=
  match data with
  | JDict kv => ret (match assoc_last k kv None with Some v => v | None => JNull end)
  | _ => raise (AttributeError ("'" ++ py_type_name data ++ "' object has no attribute 'get'"))
  end.

(** The body of the [try] block of [_refresh_token]. *)
Definition refresh_token_body (username password : string) : M unit :=
  response <- http_send (form_login_request username password) ;;
  cookie_token <- lift (login_cookie_token response) ;;
  if truthy_str cookie_token then
    set_token (JStr cookie_token) ;;;
    now <- utcnow ;;
    set_expiry (now + TOKEN_LIFETIME)%Z
  else
    response2 <- http_send (json_login_request username password) ;;
    if Z.eqb (status_code response2) 200 then
      data <- response_json response2 ;;
      tok <- json_get data "token" ;;
      set_token tok ;;;
      (if negb (truthy tok)
       then raise (ValueError "No token received from login response")
       else ret tt) ;;;
      now <- utcnow ;;
      set_expiry (now + TOKEN_LIFETIME)%Z
    else ret tt.

(** [AuthManager._refresh_token]. *)
Definition refresh_token (username password : string) : M unit :=
  try_except (refresh_token_body username password)
    (fun e => raise (RuntimeError ("Authentication failed: " ++ exn_str e))).

(** The test of [get_valid_token]:
    [self.token and self.token_expiry and datetime.utcnow() < self.token_expiry]. *)
Definition token_is_fresh (w : world) : bool :=
  truthy (w_token w) &&
  match w_expiry w with
  | Some e => Z.ltb (w_now w) e
  | None => false
  end.

(** [AuthManager.get_valid_token]. *)
Definition get_valid_token (username password : string) : M json :=
  fresh <- gets token_is_fresh ;;
  if fresh then gets w_token
  else refresh_token username password ;;; gets w_token.

(** *** BankAPIClient *)

(** [headers[k] = v] on a Python dict kept in insertion order. *)
Fixpoint set_header (k v : string) (hs : list (string * string)) : list (string * string) :=
  match hs with
  | [] => [(k, v)]
  | (k', v') :: r => if String.eqb k k' then (k, v) :: r else (k', v') :: set_header k v r
  end.

Definition is_success (status : Z) : bool := (200 <=? status)%Z && (status <? 300)%Z.

(** The body of the [try] block of [_make_request]. *)
Definition make_request_body (req : request) : M json :=
  response <- http_send req ;;
  if negb (is_success (status_code response))
  then raise (HTTPStatusError (status_code response) (text response))
  else
    let ct := match content_type response with Some c => c | None => "" end in
    if contains "application/json" ct then response_json response
    else ret (JDict [("response", JStr (text response))]).

(** The request sent by [_make_request]: [headers['Content-Type']] is set
    to [application/json] when a [json=] body is passed. *)
Definition build_request (method url : string) (headers : list (string * string))
  (json_arg : option json) : request :=
  let headers' :=
    match json_arg with
    | Some _ => set_header "Content-Type" "application/json" headers
    | None => headers
    end in
  mkRequest method url headers'
    (match json_arg with Some j => JsonBody j | None => NoBody end).

(** [BankAPIClient._make_request(method, url, headers=..., json=...)]. *)
Definition _make_request (method url : string) (headers : list (string * string))
  (json_arg : option json) : M json :=
  try_except (make_request_body (build_request method url headers json_arg))
    (fun e =>
       match e with
       | HTTPStatusError s b =>
           raise (RuntimeError ("Bank API error (" ++ Z_to_string s ++ "): " ++ b))
       | _ => raise (RuntimeError ("Request failed: " ++ exn_str e))
       end).

(** [headers = {}; if token: headers['Authorization'] = f'Bearer {token}'] *)
Definition bearer_headers (token : option string) : list (string * string) :=
  match token with
  | Some t => if truthy_str t then [("Authorization", "Bearer " ++ t)] else []
  | None => []
  end.

(** [BankAPIClient.authenticate]. *)
Definition authenticate (username password : string) : M json :=
  token <- get_valid_token username password ;;
  ret (JDict [("token", token); ("username", JStr username);
              ("status", JStr "authenticated")]).

(** *** The database fallback *)

(** The SQL text built by [_get_transactions_via_db]. *)
Definition sql_of (account_id : string) : string :=
  "SELECT transaction_id, from_acct, to_acct, amount, " ++
  "to_char(timestamp, 'YYYY-MM-DD" ++ dq ++ "T" ++ dq ++ "HH24:MI:SS') AS ts " ++
  "FROM transactions " ++
  "WHERE from_acct='" ++ account_id ++ "' OR to_acct='" ++ account_id ++ "' " ++
  "ORDER BY timestamp DESC LIMIT 50;".

Definition psql_prefix : string :=
  "kubectl exec ledger-db-0 -- psql -U admin -d postgresdb -t -A -F , -c ".

(** The shell command run by [_get_transactions_via_db]. *)
Definition cmd_of (account_id : string) : string :=
  psql_prefix ++ shlex_quote (sql_of account_id).

(** One parsed row of the fallback output. *)
Record tx_record : Type := mkTx {
  transaction_id : string;
  fromAccountNum : string;
  toAccountNum : string;
  amount : Z;
  timestamp : string;
  tx_status : string
}.

Definition tx_json (t : tx_record) : json :=
  JDict [("transaction_id", JStr (transaction_id t));
         ("fromAccountNum", JStr (fromAccountNum t));
         ("toAccountNum", JStr (toAccountNum t));
         ("amount", JInt (amount t));
         ("timestamp", JStr (timestamp t));
         ("status", JStr (tx_status t))].

Definition part (parts : list (list ascii)) (i : nat) : string :=
  string_of_list_ascii (nth i parts []).

(** [lines = [l.strip() for l in out.splitlines() if l.strip()]]. *)
Definition output_lines (out : string) : list (list ascii) :=
  map strip (filter (fun l => match strip l with [] => false | _ => true end)
                    (splitlines (list_ascii_of_string out))).

(** The [for line in lines] loop, with its [try]/[except ValueError: continue]. *)
Fixpoint parse_loop (lines : list (list ascii)) (transactions : list tx_record)
  : list tx_record :=
  match lines with
  | [] => transactions
  | line :: rest =>
      let parts := split_comma line in
      if 5 <=? length parts then
        match py_int (nth 3 parts []) with
        | Some amt =>
            parse_loop rest
              (transactions ++ [mkTx (part parts 0) (part parts 1) (part parts 2)
                                     amt (part parts 4) "COMPLETED"])%list
        | None => parse_loop rest transactions
        end
      else parse_loop rest transactions
  end.

Definition history_json (account_id : string) (transactions : list tx_record) : json :=
  JDict [("account_id", JStr account_id);
         ("transactions", JList (map tx_json transactions));
         ("total_count", JInt (Z.of_nat (length transactions)))].

(** [BankAPIClient._get_transactions_via_db]. *)
Definition _get_transactions_via_db (account_id : string) : M json :=
  proc <- run_shell (cmd_of account_id) ;;
  if negb (Z.eqb (returncode proc) 0)
  then raise (RuntimeError ("Database query failed: " ++ stderr proc))
  else ret (history_json account_id (parse_loop (output_lines (stdout proc)) [])).

(** *** The REST operations *)

(** [BankAPIClient.get_transactions]. *)
Definition get_transactions (account_id : string) (token : option string) : M json :=
  let url := TRANSACTION_HISTORY_URL ++ "/transactions/" ++ account_id in
  try_except (_make_request "GET" url (bearer_headers token) None)
    (fun _ => _get_transactions_via_db account_id).

Definition submit_transaction (transaction_data : json) : M json :=
  _make_request "POST" (LEDGER_WRITER_URL ++ "/transactions") [] (Some transaction_data).

Definition get_account_balance (account_id : string) (token : option string) : M json :=
  _make_request "GET" (BALANCES_URL ++ "/balances/" ++ account_id) (bearer_headers token) None.

Definition get_contacts (user_id : string) (token : option string) : M json :=
  _make_request "GET" (CONTACTS_URL ++ "/contacts/" ++ user_id) (bearer_headers token) None.

Definition add_contact (user_id : string) (contact_data : json) (token : option string)
  : M json :=
  _make_request "POST" (CONTACTS_URL ++ "/contacts/" ++ user_id) (bearer_headers token)
    (Some contact_data).

Definition get_user_details (user_id : string) (token : option string) : M json :=
  _make_request "GET" (BANK_BASE_URL ++ "/users/" ++ user_id) (bearer_headers token) None.

Definition lock_account (user_id reason : string) (token : option string) : M json :=
  _make_request "POST" (BANK_BASE_URL ++ "/users/" ++ user_id ++ "/lock")
    (bearer_headers token) (Some (JDict [("reason", JStr reason)])).

End Client.

(** ** Vocabulary of the statements *)

(** The same AuthManager and log, with the clock reading [t]. *)
Definition at_time (t : Z) (w : world) : world :=
  mkWorld (w_token w) (w_expiry w) t (w_log w).

(** The kinds of failure named by the specification. *)
Inductive failure_kind : Type :=
| AuthenticationFailed
| BackendHTTPError
| RequestFailed
| FallbackQueryFailed.

(** The only way to tell the kinds apart in the code: the message prefix of
    the [RuntimeError]. *)
Definition kind_of_error (e : exn) : option failure_kind :=
  match e with
  | RuntimeError m =>
      if prefix "Authentication failed: " m then Some AuthenticationFailed
      else if prefix "Bank API error (" m then Some BackendHTTPError
      else if prefix "Request failed: " m then Some RequestFailed
      else if prefix "Database query failed: " m then Some FallbackQueryFailed
      else None
  | _ => None
  end.

(** The pieces of [sql_of] around the two copies of the account id. *)
Definition sql_head : string :=
  "SELECT transaction_id, from_acct, to_acct, amount, " ++
  "to_char(timestamp, 'YYYY-MM-DD" ++ dq ++ "T" ++ dq ++ "HH24:MI:SS') AS ts " ++
  "FROM transactions WHERE from_acct='".
Definition sql_mid : string := "' OR to_acct='".
Definition sql_tail : string := "' ORDER BY timestamp DESC LIMIT 50;".

(** A line with at least five comma-separated fields whose fourth field is
    accepted by [int()]. *)
Definition well_formed_row (line : list ascii) : bool :=
  let parts := split_comma line in
  (5 <=? length parts) &&
  match py_int (nth 3 parts []) with Some _ => true | None => false end.

(** The record one line yields, if any. *)
Definition parse_row (line : list ascii) : option tx_record :=
  let parts := split_comma line in
  if 5 <=? length parts then
    match py_int (nth 3 parts []) with
    | Some amt => Some (mkTx (part parts 0) (part parts 1) (part parts 2) amt
                             (part parts 4) "COMPLETED")
    | None => None
    end
  else None.

Fixpoint filter_map {A B : Type} (f : A -> option B) (l : list A) : list B :=
  match l with
  | [] => []
  | x :: r => match f x with Some y => y :: filter_map f r | None => filter_map f r end
  end.

(** A 2xx response whose content type does not contain [application/json]. *)
Definition plain_success (r : response) : bool :=
  is_success (status_code r) &&
  negb (contains "application/json" (match content_type r with Some c => c | None => "" end)).

(** The request of the primary path of [get_transactions]. *)
Definition primary_request (account_id : string) (token : option string) : request :=
  build_request "GET" (TRANSACTION_HISTORY_URL ++ "/transactions/" ++ account_id)
    (bearer_headers token) None.

(** [op] sends exactly the request [req], changes nothing else, and fails
    only with the two errors of [_make_request]. *)
Definition sends_as_given (op : M json) (req : request) : Prop :=
  forall w,
    fst (op w) = log_event (EvHttp req) w
    /\ (forall e, snd (op w) = Raise e ->
          exists msg, e = RuntimeError ("Bank API error (" ++ msg)
                      \/ e = RuntimeError ("Request failed: " ++ msg)).

(** The cookies named [token] among [cs], in order. *)
Definition token_cookies (cs : list cookie) : list cookie :=
  filter (fun c => String.eqb (ck_name c) "token") cs.

(** ** Concrete fixtures *)

Definition lf : string := String (ascii_of_nat 10) EmptyString.

(** A fresh [AuthManager] at [t = 0], nothing done yet. *)
Definition w0 : world := mkWorld JNull None 0 [].

(** The message of [json.loads] on a text that does not start a JSON value. *)
Definition no_json_value : string := "Expecting value: line 1 column 1 (char 0)".

Definition plain_response (status : Z) (body_text : string) : response :=
  mkResponse status (Some "text/html") [] body_text (inr no_json_value).

(** The cookie [Set-Cookie: <name>=<value>] on the answer to a request to
    [http://userservice:8080/login]: domain [userservice.local] (a host
    name without a dot), path [/]. *)
Definition login_cookie (name value : string) : cookie :=
  mkCookie "userservice.local" "/" name (Some value).

(** A backend answering every request with HTTP 500. *)
Definition http_500 (_ : list event) (_ : request) : http_outcome :=
  Responded (plain_response 500 "Internal Server Error").

(** A [kubectl] that fails. *)
Definition shell_fail (_ : list event) (_ : string) : spawn_outcome :=
  Spawned (mkProc 1 "" "error: pod ledger-db-0 not found").

(** A host that cannot start one more process. *)
Definition shell_no_fork (_ : list event) (_ : string) : spawn_outcome :=
  SpawnFailed "BlockingIOError" "[Errno 11] Resource temporarily unavailable".

(** A [kubectl] printing two ledger rows. *)
Definition shell_two_rows (_ : list event) (_ : string) : spawn_outcome :=
  Spawned (mkProc 0 ("t1,acct-9,acct-2,100,2024-01-01T00:00:00" ++ lf ++
                     "t2,acct-3,acct-9,250,2024-01-02T00:00:00" ++ lf) "").

(** An identity service that rejects both login forms with HTTP 401. *)
Definition http_401 (_ : list event) (_ : request) : http_outcome :=
  Responded (plain_response 401 "Unauthorized").

Definition ONE_HOUR : Z := 3600000000.

(** An AuthManager holding a token that expired at [t = 0], read at one hour. *)
Definition w_expired : world := mkWorld (JStr "old-jwt") (Some 0%Z) ONE_HOUR [].

(** The form login answers 200 (no redirect), the JSON login answers 200
    with the object [{}]. *)
Definition http_no_token_field (_ : list event) (r : request) : http_outcome :=
  match req_body r with
  | JsonBody _ => Responded (mkResponse 200 (Some "application/json") [] "{}" (inl (JDict [])))
  | _ => Responded (plain_response 200 "<html>login</html>")
  end.

(** The form login redirects with the cookie [token=jwt-1]. *)
Definition http_login_cookie (_ : list event) (r : request) : http_outcome :=
  match req_body r with
  | FormBody _ =>
      Responded (mkResponse 302 (Some "text/html") [login_cookie "token" "jwt-1"] ""
                   (inr no_json_value))
  | _ => Responded (plain_response 404 "Not Found")
  end.

(** The form login redirects with an empty cookie [token=]; the JSON login
    answers [{"token": "jwt-2"}]. *)
Definition http_empty_cookie (_ : list event) (r : request) : http_outcome :=
  match req_body r with
  | FormBody _ =>
      Responded (mkResponse 302 (Some "text/html") [login_cookie "token" ""] ""
                   (inr no_json_value))
  | JsonBody _ =>
      Responded (mkResponse 200 (Some "application/json") []
                   ("{" ++ dq ++ "token" ++ dq ++ ": " ++ dq ++ "jwt-2" ++ dq ++ "}")
                   (inl (JDict [("token", JStr "jwt-2")])))
  | NoBody => Responded (plain_response 404 "Not Found")
  end.

(** The AuthManager after the cookie login of [alice] at [t = 0]. *)
Definition w_after_login : world :=
  mkWorld (JStr "jwt-1") (Some TOKEN_LIFETIME) 0
    [EvHttp (form_login_request "alice" "pw")].

(** A network on which no request gets a response. *)
Definition http_down (_ : list event) (_ : request) : http_outcome :=
  NoResponse "connection refused".

(** A backend answering every request with HTTP 200 and a plain-text body. *)
Definition http_text_ok (_ : list event) (_ : request) : http_outcome :=
  Responded (mkResponse 200 (Some "text/plain; charset=utf-8") [] "OK" (inr no_json_value)).

(** ** Python formatting of values: [str], [repr] and [json.dumps] *)

Module PyFmt.

Fixpoint join (sep : string) (l : list string) : string :=
  match l with
  | [] => ""
  | [x] => x
  | x :: r => x ++ sep ++ join sep r
  end.

Fixpoint keys_first (seen : list string) {A : Type} (kv : list (string * A)) : list string :=
  match kv with
  | [] => []
  | (k, _) :: r =>
      if existsb (String.eqb k) seen then keys_first seen r else k :: keys_first (k :: seen) r
  end.

(** The items of the [dict] built from a list of pairs: a key keeps the
    place of its first binding and the value of its last one. *)
Definition dict_items {A : Type} (dflt : A) (kv : list (string * A)) : list (string * A) :=
  map (fun k => (k, match assoc_last k kv None with Some v => v | None => dflt end))
      (keys_first [] kv).

(** [json.dumps] on a string ([ensure_ascii=True]). *)
Definition json_escape_char (c : ascii) : string :=
  let n := nat_of_ascii c in
  if n =? 34 then bs ++ dq
  else if n =? 92 then bs ++ bs
  else if n =? 8 then bs ++ "b"
  else if n =? 12 then bs ++ "f"
  else if n =? 10 then bs ++ "n"
  else if n =? 13 then bs ++ "r"
  else if n =? 9 then bs ++ "t"
  else if (n <? 32) || (126 <? n) then bs ++ "u00" ++ hex2 c
  else String c EmptyString.

Fixpoint json_escape (s : string) : string :=
  match s with
  | EmptyString => EmptyString
  | String c r => json_escape_char c ++ json_escape r
  end.

Definition json_quote (s : string) : string := dq ++ json_escape s ++ dq.

(** [repr] of a float. *)
Definition float_repr (f : py_float) : string :=
  match f with
  | Finite r => r
  | NaN => "nan"
  | PosInf => "inf"
  | NegInf => "-inf"
  end.

(** A float in [json.dumps] ([allow_nan=True]). *)
Definition float_json (f : py_float) : string :=
  match f with
  | Finite r => r
  | NaN => "NaN"
  | PosInf => "Infinity"
  | NegInf => "-Infinity"
  end.

(** [json.dumps(obj)] with the default separators [', '] and [': ']. *)
Fixpoint json_dumps (j : json) : string :=
  match j with
  | JNull => "null"
  | JBool true => "true"
  | JBool false => "false"
  | JInt z => Z_to_string z
  | JFloat f => float_json f
  | JStr s => json_quote s
  | JList l => "[" ++ join ", " (map json_dumps l) ++ "]"
  | JDict kv =>
      "{" ++ join ", " (map (fun '(k, v) => json_quote k ++ ": " ++ v)
                            (dict_items "" (map (fun '(k, v) => (k, json_dumps v)) kv)))
      ++ "}"
  end.

Fixpoint py_repr (j : json) : string :=
  match j with
  | JNull => "None"
  | JBool true => "True"
  | JBool false => "False"
  | JInt z => Z_to_string z
  | JFloat f => float_repr f
  | JStr s => py_repr_str s
  | JList l => "[" ++ join ", " (map py_repr l) ++ "]"
  | JDict kv =>
      "{" ++ join ", " (map (fun '(k, v) => py_repr_str k ++ ": " ++ v)
                            (dict_items "" (map (fun '(k, v) => (k, py_repr v)) kv)))
      ++ "}"
  end.

(** [str(v)], which is also what an f-string inserts. *)
Definition py_str (j : json) : string :=
  match j with
  | JStr s => s
  | _ => py_repr j
  end.

End PyFmt.
Import PyFmt.

(** [d.get(k, dflt)] on the items of a decoded object. *)
Definition dget (kv : list (string * json)) (k : string) (dflt : json) : json :=
  match assoc_last k kv None with Some v => v | None => dflt end.

(** [v.get(k, dflt)] on any value: [AttributeError] unless [v] is a dict. *)
Definition py_get (v : json) (k : string) (dflt : json) : M json :=
  match v with
  | JDict kv => ret (dget kv k dflt)
  | _ => raise (AttributeError ("'" ++ py_type_name v ++ "' object has no attribute 'get'"))
  end.

(** [v == s] for a value and a [str]. *)
Definition is_str (v : json) (s : string) : bool :=
  match v with JStr t => String.eqb t s | _ => false end.

(** The [token] argument of the client's operations seen as the
    [Optional[str]] the model takes: only its truthiness and its f-string
    rendering [f'Bearer {token}'] are used. *)
Definition token_arg (token : json) : option string :=
  if truthy token then Some (py_str token) else None.

(** ** The caller: [mcp-server/vigil_mcp_rest_wrapper.py] *)

(** The defaults of the environment variables. *)
Definition AUTH_USERNAME : string := "testuser".
Definition AUTH_PASSWORD : string := "bankofanthos".

(** The outcome of an endpoint: a [JSONResponse], or a raised
    [HTTPException(status_code, detail)]. *)
Inductive endpoint_result : Type :=
| JSONResponse (j : json)
| HTTPException (status_code : Z) (detail : string).

(** No [NaN] or infinite float among the values of a dict or list (for a
    dict, among the values its keys keep). *)
Fixpoint json_compliant (j : json) : bool :=
  match j with
  | JFloat (Finite _) => true
  | JFloat _ => false
  | JList l => forallb json_compliant l
  | JDict kv => forallb snd (dict_items true (map (fun '(k, v) => (k, json_compliant v)) kv))
  | _ => true
  end.

Definition json_range_error : string := "Out of range float values are not JSON compliant".

(** [JSONResponse(content)]: Starlette renders the content with
    [json.dumps(..., allow_nan=False)], which raises [ValueError] on a
    [NaN] or infinite float. *)
Definition json_response (j : json) : M endpoint_result :=
  if json_compliant j then ret (JSONResponse j) else raise (ValueError json_range_error).

Definition account_to_user : list (string * string) :=
  [("1033623433", "alice"); ("1011226111", "bob");
   ("1055757655", "eve"); ("1077441377", "ted")].

Section Wrapper.

Variable http : list event -> request -> http_outcome.
Variable shell : list event -> string -> spawn_outcome.

(** The [token] computed by the [/tools/get_transactions] endpoint. *)
Definition demo_token (account_id : string) : M json :=
  match assoc_last account_id account_to_user None with
  | Some username =>
      if truthy_str username then
        try_except (auth_result <- authenticate http username username ;;
                    json_get auth_result "token")
          (fun _ => ret JNull)
      else ret JNull
  | None => ret JNull
  end.

(** The [/tools/get_transactions] endpoint. *)
Definition rest_get_transactions (account_id : string) : M endpoint_result :=
  try_except
    (token <- demo_token account_id ;;
     result <- get_transactions http shell account_id (token_arg token) ;;
     json_response result)
    (fun e => ret (HTTPException 500 (exn_str e))).

(** The [/tools/authenticate_user] endpoint. *)
Definition rest_authenticate_user (username password : string) : M endpoint_result :=
  try_except (result <- authenticate http username password ;; json_response result)
    (fun e => ret (HTTPException 500 (exn_str e))).

End Wrapper.

(** *** The JSON-RPC bridge [jsonrpc_handler] *)

Definition rpc_error (rpc_id : json) (code : Z) (message : string) : json :=
  JDict [("jsonrpc", JStr "2.0"); ("id", rpc_id);
         ("error", JDict [("code", JInt code); ("message", JStr message)])].

Definition rpc_result (rpc_id : json) (result : json) : json :=
  JDict [("jsonrpc", JStr "2.0"); ("id", rpc_id); ("result", result)].

Definition initialize_result : json :=
  JDict [("capabilities", JDict [("tools", JBool true); ("resources", JBool true)]);
         ("serverInfo", JDict [("name", JStr "vigil-mcp-rest-wrapper");
                               ("version", JStr "1.0.0")])].

(** [{"content": [{"type": "text", "text": json.dumps(result)}]}]. *)
Definition text_content (result : json) : json :=
  JDict [("content", JList [JDict [("type", JStr "text"); ("text", JStr (json_dumps result))]])].

Section Rpc.

Variable http : list event -> request -> http_outcome.
(** [bank_client.get_transactions], [bank_client.lock_account] and
    [bank_client.authenticate] as called by the bridge: it passes them the
    raw values of the request's [arguments], which the client puts into its
    requests (and [get_transactions] into its result) as they are, so these
    calls are left as parameters. *)
Variable tool_get_transactions : json -> json -> M json.
Variable tool_lock_account : json -> json -> json -> M json.
Variable tool_authenticate : json -> json -> M json.

(** [token = None; if AUTH_USERNAME and AUTH_PASSWORD: try: token = await
    auth_manager.get_valid_token(...) except Exception: ...]. *)
Definition fetch_token : M json :=
  if truthy_str AUTH_USERNAME && truthy_str AUTH_PASSWORD then
    try_except (get_valid_token http AUTH_USERNAME AUTH_PASSWORD) (fun _ => ret JNull)
  else ret JNull.

(** The [tools/call] branch; [HTTPException] is the raised one. *)
Definition rpc_tools_call (rpc_id params : json) : M endpoint_result :=
  name <- py_get params "name" JNull ;;
  arguments <- py_get params "arguments" (JDict []) ;;
  if is_str name "get_transactions" then
    account_id <- py_get arguments "account_id" JNull ;;
    if negb (truthy account_id) then ret (HTTPException 400 "Missing account_id")
    else
      token <- fetch_token ;;
      result <- tool_get_transactions account_id token ;;
      ret (JSONResponse (rpc_result rpc_id (text_content result)))
  else if is_str name "get_user_details" then
    user_id <- py_get arguments "user_id" JNull ;;
    if negb (truthy user_id) then ret (HTTPException 400 "Missing user_id")
    else
      token <- fetch_token ;;
      result <- get_user_details http (py_str user_id) (token_arg token) ;;
      ret (JSONResponse (rpc_result rpc_id (text_content result)))
  else if is_str name "lock_account" then
    user_id <- py_get arguments "user_id" JNull ;;
    reason <- py_get arguments "reason" (JStr "security") ;;
    token <- fetch_token ;;
    result <- tool_lock_account user_id reason token ;;
    ret (JSONResponse (rpc_result rpc_id (text_content result)))
  else if is_str name "submit_transaction" then
    from_account <- py_get arguments "from_account" JNull ;;
    to_account <- py_get arguments "to_account" JNull ;;
    amount <- py_get arguments "amount" JNull ;;
    routing_number <- py_get arguments "routing_number" (JStr "000000000") ;;
    result <- submit_transaction http
                (JDict [("fromAccount", from_account); ("toAccount", to_account);
                        ("amount", amount); ("routingNumber", routing_number)]) ;;
    ret (JSONResponse (rpc_result rpc_id (text_content result)))
  else if is_str name "authenticate_user" then
    username <- py_get arguments "username" JNull ;;
    password <- py_get arguments "password" JNull ;;
    auth <- tool_authenticate username password ;;
    ret (JSONResponse (rpc_result rpc_id (text_content auth)))
  else
    ret (JSONResponse (rpc_error rpc_id (-32601) ("Unknown tool: " ++ py_str name))).

(** The [try] block of [jsonrpc_handler]; the request body is the decoded
    value, or the message of the [JSONDecodeError] of [request.json()]. *)
Definition rpc_dispatch (request_body : json + string) : M endpoint_result :=
  match request_body with
  | inr msg => raise (JSONDecodeError msg)
  | inl body =>
      rpc_id <- py_get body "id" JNull ;;
      method <- py_get body "method" JNull ;;
      params <- py_get body "params" (JDict []) ;;
      if is_str method "initialize" then ret (JSONResponse (rpc_result rpc_id initialize_result))
      else if is_str method "tools/call" then rpc_tools_call rpc_id params
      else ret (JSONResponse (rpc_error rpc_id (-32601) "Method not found"))
  end.

(** [jsonrpc_handler]. *)
Definition jsonrpc_handler (request_body : json + string) : M json :=
  try_except
    (r <- rpc_dispatch request_body ;;
     match r with
     | JSONResponse j => ret j
     | HTTPException code detail => ret (rpc_error JNull code detail)
     end)
    (fun e => ret (rpc_error JNull (-32000) (exn_str e))).

End Rpc.

(** ** The [psql -t -A -F ,] rendering of ledger rows *)

(** One row: the five selected columns separated by commas. *)
Definition psql_row (t : tx_record) : string :=
  transaction_id t ++ "," ++ fromAccountNum t ++ "," ++ toAccountNum t ++ "," ++
  Z_to_string (amount t) ++ "," ++ timestamp t.

(** The rows, each ended by a newline. *)
Definition psql_output (rows : list tx_record) : string :=
  fold_right (fun t acc => psql_row t ++ lf ++ acc) "" rows.

(** A text column printed as is and read back as is: ASCII, with no comma
    and no whitespace. *)
Definition plain_field (s : string) : bool :=
  forallb (fun c => (nat_of_ascii c <? 128) && negb (Ascii.eqb c ","%char) && negb (is_space c))
    (list_ascii_of_string s).

(** A row whose text columns are plain and whose amount has at most
    [int_max_str_digits] digits. *)
Definition plain_row (t : tx_record) : bool :=
  plain_field (transaction_id t) && plain_field (fromAccountNum t) &&
  plain_field (toAccountNum t) && plain_field (timestamp t) &&
  (Z.abs (amount t) <? 10 ^ Z.of_nat int_max_str_digits)%Z &&
  String.eqb (tx_status t) "COMPLETED".

(** The answer of an endpoint for a value it passes to [JSONResponse]
    inside its [try]. *)
Definition render (j : json) : endpoint_result :=
  if json_compliant j then JSONResponse j else HTTPException 500 json_range_error.

(** An outcome of the client turned into the endpoint's answer:
    [return JSONResponse(result)], and
    [except Exception as e: raise HTTPException(status_code=500, detail=str(e))]. *)
Definition as_endpoint (o : world * result json) : world * result endpoint_result :=
  match o with
  | (w, Ok j) => (w, Ok (render j))
  | (w, Raise e) => (w, Ok (HTTPException 500 (exn_str e)))
  end.

(** *** Fixtures of the callers *)

(** Two ledger rows as [psql] prints them. *)
Definition rows_two : list tx_record :=
  [mkTx "t1" "1033623433" "1011226111" (-2500) "2024-01-01T00:00:00" "COMPLETED";
   mkTx "t2" "1011226111" "1033623433" 100 "2024-01-02T09:30:00" "COMPLETED"].

Definition shell_psql_rows (_ : list event) (_ : string) : spawn_outcome :=
  Spawned (mkProc 0 (psql_output rows_two) "").

(** A backend answering every request with HTTP 200 and the JSON array [[]]. *)
Definition http_json_ok (_ : list event) (_ : request) : http_outcome :=
  Responded (mkResponse 200 (Some "application/json") [] "[]" (inl (JList []))).

(** The world after a login attempt of the bridge's service account on a
    network that does not answer. *)
Definition w_login_refused : world :=
  log_event (EvHttp (form_login_request AUTH_USERNAME AUTH_PASSWORD)) w0.

(** Bank-client calls that fail as the fallback does when [kubectl] fails. *)
Definition tool_fails2 (_ _ : json) : M json :=
  raise (RuntimeError "Database query failed: no pod").
Definition tool_fails3 (_ _ _ : json) : M json :=
  raise (RuntimeError "Database query failed: no pod").

(** A bank-client call answering with the arguments it received. *)
Definition tool_echo3 (user_id reason _ : json) : M json :=
  ret (JDict [("user_id", user_id); ("reason", reason)]).

(** The items of a JSON-RPC request body. *)
Definition rpc_body (rpc_id : json) (method : string) (params : list (string * json))
  : list (string * json) :=
  [("jsonrpc", JStr "2.0"); ("id", rpc_id); ("method", JStr method);
   ("params", JDict params)].

Definition call_params (name : string) (arguments : list (string * json))
  : list (string * json) :=
  [("name", JStr name); ("arguments", JDict arguments)].

(** ** General facts about the model *)

Lemma make_request_world http method url headers json_arg w :
  fst (_make_request http method url headers json_arg w)
  = log_event (EvHttp (build_request method url headers json_arg)) w.
Proof.
  unfold _make_request, try_except, make_request_body, bind, http_send.
  destruct (http (w_log w) _) as [resp|msg]; [|reflexivity].
  destruct (negb (is_success (status_code resp))); [reflexivity|].
  destruct (contains _ _); [|reflexivity].
  unfold response_json; destruct (json_body resp); reflexivity.
Qed.

Lemma via_db_run shell account_id w :
  _get_transactions_via_db shell account_id w =
  let w' := log_event (EvShell (cmd_of account_id)) w in
  match shell (w_log w) (cmd_of account_id) with
  | SpawnFailed cls msg => (w', Raise (OSError cls msg))
  | Spawned pr =>
      if negb (Z.eqb (returncode pr) 0)
      then (w', Raise (RuntimeError ("Database query failed: " ++ stderr pr)))
      else (w', Ok (history_json account_id (parse_loop (output_lines (stdout pr)) [])))
  end.
Proof.
  unfold _get_transactions_via_db, bind, run_shell; cbn.
  destruct (shell _ _) as [pr|cls msg]; [destruct (negb _)|]; reflexivity.
Qed.

Lemma prefix_app (p s : string) : prefix p (p ++ s) = true.
Proof.
  induction p as [|c p IH]; [destruct s; reflexivity|].
  cbn. destruct (ascii_dec c c) as [_|n]; [exact IH|contradiction n; reflexivity].
Qed.

Lemma kind_auth s :
  kind_of_error (RuntimeError ("Authentication failed: " ++ s)) = Some AuthenticationFailed.
Proof. unfold kind_of_error. rewrite prefix_app. reflexivity. Qed.

Lemma kind_backend s :
  kind_of_error (RuntimeError ("Bank API error (" ++ s)) = Some BackendHTTPError.
Proof. unfold kind_of_error. rewrite prefix_app. reflexivity. Qed.

Lemma kind_request s :
  kind_of_error (RuntimeError ("Request failed: " ++ s)) = Some RequestFailed.
Proof. unfold kind_of_error. rewrite prefix_app. reflexivity. Qed.

Lemma kind_fallback s :
  kind_of_error (RuntimeError ("Database query failed: " ++ s)) = Some FallbackQueryFailed.
Proof. unfold kind_of_error. rewrite prefix_app. reflexivity. Qed.

(** What [_make_request] returns or raises, by the answer of the network. *)
Lemma make_request_result http method url headers json_arg w :
  snd (_make_request http method url headers json_arg w) =
  match http (w_log w) (build_request method url headers json_arg) with
  | NoResponse msg => Raise (RuntimeError ("Request failed: " ++ msg))
  | Responded r =>
      if negb (is_success (status_code r))
      then Raise (RuntimeError ("Bank API error (" ++ Z_to_string (status_code r)
                                ++ "): " ++ text r))
      else if contains "application/json"
                (match content_type r with Some c => c | None => "" end)
      then match json_body r with
           | inl j => Ok j
           | inr msg => Raise (RuntimeError ("Request failed: " ++ msg))
           end
      else Ok (JDict [("response", JStr (text r))])
  end.
Proof.
  unfold _make_request, try_except, make_request_body, bind, http_send.
  destruct (http (w_log w) _) as [r|msg]; [|reflexivity].
  destruct (negb (is_success (status_code r))); [reflexivity|].
  destruct (contains _ _); [|reflexivity].
  unfold response_json; destruct (json_body r); reflexivity.
Qed.

(** One run of the [try] block of [_refresh_token], case by case. *)
Lemma refresh_token_body_run http username password w :
  refresh_token_body http username password w =
  let form := EvHttp (form_login_request username password) in
  let json_ev := EvHttp (json_login_request username password) in
  let w1 := log_event form w in
  match http (w_log w) (form_login_request username password) with
  | NoResponse m => (w1, Raise (TransportError m))
  | Responded r1 =>
      match login_cookie_token r1 with
      | Raise e => (w1, Raise e)
      | Ok ct =>
      if truthy_str ct then
        (mkWorld (JStr ct) (Some (w_now w + TOKEN_LIFETIME)%Z) (w_now w) (w_log w1), Ok tt)
      else
        let w2 := log_event json_ev w1 in
        match http (w_log w1) (json_login_request username password) with
        | NoResponse m => (w2, Raise (TransportError m))
        | Responded r2 =>
            if Z.eqb (status_code r2) 200 then
              match json_body r2 with
              | inr msg => (w2, Raise (JSONDecodeError msg))
              | inl (JDict kv) =>
                  let tok := match assoc_last "token" kv None with
                             | Some v => v
                             | None => JNull
                             end in
                  if truthy tok
                  then (mkWorld tok (Some (w_now w + TOKEN_LIFETIME)%Z) (w_now w) (w_log w2),
                        Ok tt)
                  else (mkWorld tok (w_expiry w) (w_now w) (w_log w2),
                        Raise (ValueError "No token received from login response"))
              | inl data =>
                  (w2, Raise (AttributeError ("'" ++ py_type_name data
                                              ++ "' object has no attribute 'get'")))
              end
            else (w2, Ok tt)
        end
      end
  end.
Proof.
  unfold refresh_token_body, bind, http_send, lift. cbv zeta.
  destruct (http (w_log w) _) as [r1|m]; [|reflexivity].
  destruct (login_cookie_token r1) as [ct|e]; [|reflexivity].
  destruct (truthy_str ct); [reflexivity|].
  destruct (http _ (json_login_request username password)) as [r2|m]; [|reflexivity].
  destruct (Z.eqb (status_code r2) 200); [|reflexivity].
  unfold response_json, json_get.
  destruct (json_body r2) as [data|msg]; [|reflexivity].
  destruct data as [| | | | | |kv]; try reflexivity.
  cbn. destruct (truthy _); reflexivity.
Qed.

Lemma get_valid_token_cached http username password w :
  token_is_fresh w = true ->
  get_valid_token http username password w = (w, Ok (w_token w)).
Proof. intros H. unfold get_valid_token, bind, gets. rewrite H. reflexivity. Qed.

Lemma get_valid_token_refreshes http username password w :
  token_is_fresh w = false ->
  get_valid_token http username password w
  = (refresh_token http username password ;;; gets w_token) w.
Proof. intros H. unfold get_valid_token, bind at 1, gets at 1. rewrite H. reflexivity. Qed.

(** Closes a goal whose hypothesis [H] equates a raised result with a
    normal one. *)
Ltac not_ok H := cbn in H; try unfold raise in H; congruence.

(** Closes an equation between logs that differ by associativity. *)
Ltac log_eq := solve [reflexivity | cbn; rewrite <- app_assoc; reflexivity].

(** ** C1: the database fallback of [get_transactions] *)

(** C1. When the primary transaction-history request raises, whatever the
    exception, [get_transactions] runs [_get_transactions_via_db] once with
    the same account id (one shell command, after the one HTTP request) and
    returns its result; when the shell command exits non-zero, the error
    raised is the fallback's [Database query failed: <stderr>]. *)
Theorem get_transactions_falls_back http shell account_id token w w1 e :
  _make_request http "GET" (TRANSACTION_HISTORY_URL ++ "/transactions/" ++ account_id)
    (bearer_headers token) None w = (w1, Raise e) ->
  get_transactions http shell account_id token w
    = _get_transactions_via_db shell account_id w1
  /\ w_log (fst (get_transactions http shell account_id token w))
     = (w_log w ++ [EvHttp (primary_request account_id token);
                    EvShell (cmd_of account_id)])%list
  /\ (forall pr, shell (w_log w1) (cmd_of account_id) = Spawned pr ->
      Z.eqb (returncode pr) 0 = false ->
      snd (get_transactions http shell account_id token w)
      = Raise (RuntimeError ("Database query failed: " ++ stderr pr))).
Proof.
  intros Hprim.
  assert (Hw1 : w1 = log_event (EvHttp (primary_request account_id token)) w).
  { pose proof (make_request_world http "GET"
                  (TRANSACTION_HISTORY_URL ++ "/transactions/" ++ account_id)
                  (bearer_headers token) None w) as Hw.
    rewrite Hprim in Hw. exact Hw. }
  assert (Hrun : get_transactions http shell account_id token w
                 = _get_transactions_via_db shell account_id w1).
  { unfold get_transactions, try_except. rewrite Hprim. reflexivity. }
  split; [exact Hrun|]. rewrite Hrun, via_db_run. split.
  - cbv zeta. subst w1.
    destruct (shell _ (cmd_of account_id)) as [pr|cls msg];
      [destruct (negb (Z.eqb (returncode pr) 0))|];
      cbn; rewrite <- app_assoc; reflexivity.
  - intros pr Hs Hrc. cbv zeta. rewrite Hs, Hrc. reflexivity.
Qed.

Lemma get_transactions_falls_back_witness :
  _make_request http_500 "GET" (TRANSACTION_HISTORY_URL ++ "/transactions/" ++ "acct-9")
    (bearer_headers None) None w0
  = (log_event (EvHttp (primary_request "acct-9" None)) w0,
     Raise (RuntimeError "Bank API error (500): Internal Server Error"))
  /\ (get_transactions http_500 shell_fail "acct-9" None w0
      = _get_transactions_via_db shell_fail "acct-9"
          (log_event (EvHttp (primary_request "acct-9" None)) w0)
  /\ w_log (fst (get_transactions http_500 shell_fail "acct-9" None w0))
     = (w_log w0 ++ [EvHttp (primary_request "acct-9" None);
                     EvShell (cmd_of "acct-9")])%list
  /\ (forall pr, shell_fail (w_log (log_event (EvHttp (primary_request "acct-9" None)) w0))
                             (cmd_of "acct-9") = Spawned pr ->
      Z.eqb (returncode pr) 0 = false ->
      snd (get_transactions http_500 shell_fail "acct-9" None w0)
      = Raise (RuntimeError ("Database query failed: " ++ stderr pr)))).
Proof.
  assert (H : _make_request http_500 "GET"
                (TRANSACTION_HISTORY_URL ++ "/transactions/" ++ "acct-9")
                (bearer_headers None) None w0
              = (log_event (EvHttp (primary_request "acct-9" None)) w0,
                 Raise (RuntimeError "Bank API error (500): Internal Server Error")))
    by reflexivity.
  split; [exact H|].
  exact (get_transactions_falls_back http_500 shell_fail "acct-9" None w0 _ _ H).
Defined.

(** ** C2: [get_valid_token] *)

(** C2 (evaluation at the failing input). With an expired token, or with
    no token, [get_valid_token] refreshes exactly once (two login requests),
    but when both logins are answered 401 the refresh returns without error
    and without a new token, so [get_valid_token] returns the expired token,
    or [None]. *)
Theorem get_valid_token_returns_stale_token :
  token_is_fresh w_expired = false
  /\ get_valid_token http_401 "alice" "pw" w_expired
     = (mkWorld (JStr "old-jwt") (Some 0%Z) ONE_HOUR
          [EvHttp (form_login_request "alice" "pw"); EvHttp (json_login_request "alice" "pw")],
        Ok (JStr "old-jwt"))
  /\ get_valid_token http_401 "alice" "pw" w0
     = (mkWorld JNull None 0
          [EvHttp (form_login_request "alice" "pw"); EvHttp (json_login_request "alice" "pw")],
        Ok JNull).
Proof. split; [|split]; reflexivity. Qed.

(** ** C3: failures of [_refresh_token] *)

(** C3 (evaluation at the failing inputs). A JSON login answered with a
    non-200 status raises nothing and leaves the AuthManager as it was; a
    JSON login answered 200 without a [token] field raises
    [Authentication failed: ...] but has already overwritten the cached
    token with [None]. *)
Theorem refresh_token_failure_paths :
  refresh_token http_401 "alice" "pw" w_expired
  = (mkWorld (JStr "old-jwt") (Some 0%Z) ONE_HOUR
       [EvHttp (form_login_request "alice" "pw"); EvHttp (json_login_request "alice" "pw")],
     Ok tt)
  /\ refresh_token http_no_token_field "alice" "pw" w_expired
     = (mkWorld JNull (Some 0%Z) ONE_HOUR
          [EvHttp (form_login_request "alice" "pw"); EvHttp (json_login_request "alice" "pw")],
        Raise (RuntimeError "Authentication failed: No token received from login response")).
Proof. split; reflexivity. Qed.

(** ** C7: the 45-minute lifetime of a refreshed token *)

(** C7. A refresh that returns normally either stored a token with expiry
    exactly [now + 45 min] or (the JSON login answered non-200) changed
    nothing; and after a refresh at [t = 0] that obtained a token,
    [get_valid_token] at 44 minutes reuses it without any request, while at
    46 minutes it runs [_refresh_token] again, starting with a new login
    request. *)
Theorem token_expiry_is_45_minutes :
  (forall http username password w w',
     refresh_token http username password w = (w', Ok tt) ->
     (w_token w' = w_token w /\ w_expiry w' = w_expiry w)
     \/ (truthy (w_token w') = true
         /\ w_expiry w' = Some (w_now w + TOKEN_LIFETIME)%Z))
  /\ (forall http username password w w1 tok,
        w_now w = 0%Z -> w_token w = JNull ->
        get_valid_token http username password w = (w1, Ok tok) ->
        truthy tok = true ->
        w_expiry w1 = Some TOKEN_LIFETIME
        /\ get_valid_token http username password (at_time (44 * 60 * 1000000) w1)
           = (at_time (44 * 60 * 1000000) w1, Ok tok)
        /\ get_valid_token http username password (at_time (46 * 60 * 1000000) w1)
           = (refresh_token http username password ;;; gets w_token)
               (at_time (46 * 60 * 1000000) w1)
        /\ exists evs,
             w_log (fst (get_valid_token http username password
                           (at_time (46 * 60 * 1000000) w1)))
             = (w_log w1 ++ EvHttp (form_login_request username password) :: evs)%list).
Proof.
  assert (P1 : forall http username password w w',
     refresh_token http username password w = (w', Ok tt) ->
     (w_token w' = w_token w /\ w_expiry w' = w_expiry w)
     \/ (truthy (w_token w') = true
         /\ w_expiry w' = Some (w_now w + TOKEN_LIFETIME)%Z)).
  { intros http u p w w' H.
    unfold refresh_token, try_except in H. rewrite refresh_token_body_run in H.
    cbv zeta in H.
    destruct (http (w_log w) (form_login_request u p)) as [r1|m];
      [|not_ok H].
    destruct (login_cookie_token r1) as [ct|e]; [|not_ok H].
    destruct (truthy_str ct) eqn:Hc.
    { injection H as <-. right. split; [exact Hc|reflexivity]. }
    destruct (http _ (json_login_request u p)) as [r2|m]; [|not_ok H].
    destruct (Z.eqb (status_code r2) 200).
    2:{ injection H as <-. left. split; reflexivity. }
    destruct (json_body r2) as [data|]; [|not_ok H].
    destruct data as [| | | | | |kv]; try (not_ok H).
    destruct (truthy _) eqn:Ht; [|not_ok H].
    injection H as <-. right. split; [exact Ht|reflexivity]. }
  split; [exact P1|].
  intros http u p w w1 tok Hnow Htok Hget Htruthy.
  assert (Hstale : token_is_fresh w = false).
  { unfold token_is_fresh. rewrite Htok. reflexivity. }
  rewrite get_valid_token_refreshes in Hget by exact Hstale.
  unfold bind, gets in Hget.
  destruct (refresh_token http u p w) as [w' [[]|e]] eqn:Hr; [|discriminate Hget].
  injection Hget as <- <-.
  destruct (P1 http u p w w' Hr) as [[Ht _]|[Ht He]].
  { rewrite Ht, Htok in Htruthy. discriminate Htruthy. }
  rewrite Hnow in He. cbn in He.
  split; [exact He|].
  split.
  { rewrite get_valid_token_cached; [reflexivity|].
    unfold token_is_fresh; cbn. rewrite Htruthy, He. reflexivity. }
  assert (Hexp : token_is_fresh (at_time (46 * 60 * 1000000) w') = false).
  { unfold token_is_fresh; cbn. rewrite He. destruct (truthy (w_token w')); reflexivity. }
  rewrite (get_valid_token_refreshes _ _ _ _ Hexp).
  split; [reflexivity|].
  unfold bind, gets, refresh_token, try_except. rewrite refresh_token_body_run. cbv zeta.
  set (w46 := at_time (46 * 60 * 1000000) w').
  destruct (http (w_log w46) (form_login_request u p)) as [r1|m].
  - destruct (login_cookie_token r1) as [ct|e]; [|exists []; log_eq].
    destruct (truthy_str ct).
    + exists []. log_eq.
    + destruct (http _ (json_login_request u p)) as [r2|m].
      * exists [EvHttp (json_login_request u p)].
        destruct (Z.eqb (status_code r2) 200); [|log_eq].
        destruct (json_body r2) as [data|]; [|log_eq].
        destruct data as [| | | | | |kv]; try log_eq.
        destruct (truthy (match assoc_last "token" kv None with Some v => v | None => JNull end)); log_eq.
      * exists [EvHttp (json_login_request u p)]. log_eq.
  - exists []. log_eq.
Qed.

Lemma token_expiry_is_45_minutes_witness :
  get_valid_token http_login_cookie "alice" "pw" w0 = (w_after_login, Ok (JStr "jwt-1"))
  /\ w_expiry w_after_login = Some TOKEN_LIFETIME
  /\ get_valid_token http_login_cookie "alice" "pw" (at_time (44 * 60 * 1000000) w_after_login)
     = (at_time (44 * 60 * 1000000) w_after_login, Ok (JStr "jwt-1"))
  /\ exists evs,
       w_log (fst (get_valid_token http_login_cookie "alice" "pw"
                     (at_time (46 * 60 * 1000000) w_after_login)))
       = (w_log w_after_login ++ EvHttp (form_login_request "alice" "pw") :: evs)%list.
Proof.
  assert (Hget : get_valid_token http_login_cookie "alice" "pw" w0
                 = (w_after_login, Ok (JStr "jwt-1"))) by reflexivity.
  destruct (proj2 token_expiry_is_45_minutes http_login_cookie "alice" "pw" w0
              w_after_login (JStr "jwt-1") eq_refl eq_refl Hget eq_refl)
    as [H1 [H2 [_ H4]]].
  split; [exact Hget|]. split; [exact H1|]. split; [exact H2|exact H4].
Defined.

(** ** C4: no input validation *)


Lemma make_request_sends_as_given http method url headers json_arg :
  sends_as_given (_make_request http method url headers json_arg)
    (build_request method url headers json_arg).
Proof.
  intros w. split; [apply make_request_world|].
  intros e. rewrite make_request_result.
  destruct (http _ _) as [r|msg]; intros H.
  - destruct (negb (is_success (status_code r))).
    { injection H as <-. eexists. left. reflexivity. }
    destruct (contains _ _); [|discriminate H].
    destruct (json_body r) as [j|msg]; [discriminate H|].
    injection H as <-. eexists. right. reflexivity.
  - injection H as <-. eexists. right. reflexivity.
Qed.





(** ** C5: the error taxonomy *)

(** C5 (counterexample). An authentication failure, a backend HTTP error, a
    request failure and a fallback failure all reach the caller as the same
    Python class, [RuntimeError]: the four kinds are not four types. *)
Lemma client_errors_share_one_class :
  snd (authenticate http_no_token_field "alice" "pw" w0)
  = Raise (RuntimeError "Authentication failed: No token received from login response")
  /\ snd (get_user_details http_500 "alice" None w0)
     = Raise (RuntimeError "Bank API error (500): Internal Server Error")
  /\ snd (get_user_details http_down "alice" None w0)
     = Raise (RuntimeError "Request failed: connection refused")
  /\ snd (get_transactions http_500 shell_fail "acct-9" None w0)
     = Raise (RuntimeError "Database query failed: error: pod ledger-db-0 not found")
  /\ Forall (fun e => exn_class e = "RuntimeError")
       [RuntimeError "Authentication failed: No token received from login response";
        RuntimeError "Bank API error (500): Internal Server Error";
        RuntimeError "Request failed: connection refused";
        RuntimeError "Database query failed: error: pod ledger-db-0 not found"].
Proof.
  split; [reflexivity|]. split; [reflexivity|]. split; [reflexivity|].
  split; [reflexivity|].
  repeat constructor.
Qed.

Lemma refresh_token_raises http username password w e :
  snd (refresh_token http username password w) = Raise e ->
  exists e0, e = RuntimeError ("Authentication failed: " ++ exn_str e0).
Proof.
  unfold refresh_token, try_except.
  destruct (refresh_token_body http username password w) as [w' [a|e0]]; cbn;
    intros H; [discriminate H|].
  injection H as <-. exists e0. reflexivity.
Qed.

Lemma get_valid_token_raises http username password w e :
  snd (get_valid_token http username password w) = Raise e ->
  exists e0, e = RuntimeError ("Authentication failed: " ++ exn_str e0).
Proof.
  destruct (token_is_fresh w) eqn:Hf.
  - rewrite get_valid_token_cached by exact Hf. discriminate.
  - rewrite get_valid_token_refreshes by exact Hf. unfold bind, gets.
    destruct (refresh_token http username password w) as [w' [a|e0]] eqn:Hr; cbn;
      intros H; [discriminate H|].
    injection H as <-. apply (refresh_token_raises http username password w).
    rewrite Hr. reflexivity.
Qed.

(** C5 (amended). The client raises [RuntimeError] for every kind of
    failure; the kind is told only by the message prefix: [Authentication
    failed: ] from [_refresh_token] (hence [get_valid_token] and
    [authenticate]), [Bank API error (<status>): <body>] for a non-2xx
    response, [Request failed: <cause>] for any other failure of
    [_make_request] (no response, or a 2xx JSON body that does not decode),
    and [Database query failed: <stderr>] from the fallback. The one
    exception is [get_transactions]: when the fallback's [kubectl] process
    cannot be started, the [OSError] of
    [asyncio.create_subprocess_shell] reaches the caller unchanged. *)
Theorem client_errors_by_message_prefix :
  (forall http method url headers json_arg w e,
     snd (_make_request http method url headers json_arg w) = Raise e ->
     exists msg, e = RuntimeError msg
       /\ (kind_of_error e = Some BackendHTTPError \/ kind_of_error e = Some RequestFailed))
  /\ (forall http method url headers json_arg w r,
        http (w_log w) (build_request method url headers json_arg) = Responded r ->
        is_success (status_code r) = false ->
        snd (_make_request http method url headers json_arg w)
        = Raise (RuntimeError ("Bank API error (" ++ Z_to_string (status_code r)
                               ++ "): " ++ text r)))
  /\ (forall http method url headers json_arg w cause,
        http (w_log w) (build_request method url headers json_arg) = NoResponse cause ->
        snd (_make_request http method url headers json_arg w)
        = Raise (RuntimeError ("Request failed: " ++ cause)))
  /\ (forall http method url headers json_arg w r msg,
        http (w_log w) (build_request method url headers json_arg) = Responded r ->
        is_success (status_code r) = true ->
        contains "application/json"
          (match content_type r with Some c => c | None => "" end) = true ->
        json_body r = inr msg ->
        snd (_make_request http method url headers json_arg w)
        = Raise (RuntimeError ("Request failed: " ++ msg)))
  /\ (forall http username password w e,
        snd (authenticate http username password w) = Raise e ->
        exists msg, e = RuntimeError msg /\ kind_of_error e = Some AuthenticationFailed)
  /\ (forall http shell account_id token w e,
        snd (get_transactions http shell account_id token w) = Raise e ->
        (exists msg, e = RuntimeError ("Database query failed: " ++ msg)
           /\ kind_of_error e = Some FallbackQueryFailed)
        \/ (exists cls msg, e = OSError cls msg
              /\ shell (w_log (log_event (EvHttp (primary_request account_id token)) w))
                       (cmd_of account_id) = SpawnFailed cls msg))
  /\ (forall http shell account_id token w cause cls msg,
        http (w_log w) (primary_request account_id token) = NoResponse cause ->
        shell (w_log (log_event (EvHttp (primary_request account_id token)) w))
              (cmd_of account_id) = SpawnFailed cls msg ->
        snd (get_transactions http shell account_id token w) = Raise (OSError cls msg)).
Proof.
  split; [|split; [|split; [|split; [|split; [|split]]]]].
  - intros http m u hs j w e H.
    destruct (proj2 (make_request_sends_as_given http m u hs j w) e H) as [msg [->| ->]].
    + eexists. split; [reflexivity|]. left. apply kind_backend.
    + eexists. split; [reflexivity|]. right. apply kind_request.
  - intros http m u hs j w r Hr Hs. rewrite make_request_result, Hr, Hs. reflexivity.
  - intros http m u hs j w c Hr. rewrite make_request_result, Hr. reflexivity.
  - intros http m u hs j w r msg Hr Hs Hc Hb.
    rewrite make_request_result, Hr, Hs. cbn [negb]. rewrite Hc, Hb. reflexivity.
  - intros http u p w e. unfold authenticate, bind at 1.
    destruct (get_valid_token http u p w) as [w' [t|e0]] eqn:Hg; cbn;
      intros H; [discriminate H|].
    injection H as <-.
    destruct (get_valid_token_raises http u p w e0) as [e1 ->];
      [rewrite Hg; reflexivity|].
    eexists. split; [reflexivity|apply kind_auth].
  - intros http sh a tok w e. unfold get_transactions, try_except.
    pose proof (make_request_world http "GET"
                  (TRANSACTION_HISTORY_URL ++ "/transactions/" ++ a)
                  (bearer_headers tok) None w) as Hw.
    destruct (_make_request http _ _ _ _ w) as [w1 [j|e0]]; [discriminate|].
    cbn in Hw. subst w1.
    cbv beta iota. rewrite via_db_run. cbv zeta.
    destruct (sh _ (cmd_of a)) as [pr|cls msg] eqn:Hs.
    + destruct (negb _); cbn; intros H; [|discriminate H].
      injection H as <-. left. eexists. split; [reflexivity|apply kind_fallback].
    + cbn. intros H. injection H as <-. right. exists cls, msg. split; reflexivity.
  - intros http sh a tok w c cls msg Hr Hs. unfold get_transactions, try_except.
    pose proof (make_request_world http "GET"
                  (TRANSACTION_HISTORY_URL ++ "/transactions/" ++ a)
                  (bearer_headers tok) None w) as Hw.
    pose proof (make_request_result http "GET"
                  (TRANSACTION_HISTORY_URL ++ "/transactions/" ++ a)
                  (bearer_headers tok) None w) as Hres.
    unfold primary_request in Hr, Hs. rewrite Hr in Hres.
    destruct (_make_request http _ _ _ _ w) as [w1 r1]; cbn [fst snd] in Hw, Hres. subst w1 r1.
    rewrite via_db_run. cbv zeta. rewrite Hs. reflexivity.
Qed.

Lemma client_errors_by_message_prefix_witness :
  http_500 [] (build_request "GET" "http://userservice:8080/users/u1" [] None)
  = Responded (plain_response 500 "Internal Server Error")
  /\ is_success (status_code (plain_response 500 "Internal Server Error")) = false
  /\ snd (_make_request http_500 "GET" "http://userservice:8080/users/u1" [] None w0)
     = Raise (RuntimeError ("Bank API error (" ++ Z_to_string 500
                            ++ "): " ++ "Internal Server Error"))
  /\ snd (authenticate http_no_token_field "alice" "pw" w0)
     = Raise (RuntimeError "Authentication failed: No token received from login response")
  /\ (exists msg,
        RuntimeError "Authentication failed: No token received from login response"
        = RuntimeError msg
        /\ kind_of_error
             (RuntimeError "Authentication failed: No token received from login response")
           = Some AuthenticationFailed)
  /\ snd (get_transactions http_down shell_no_fork "acct-9" None w0)
     = Raise (OSError "BlockingIOError" "[Errno 11] Resource temporarily unavailable").
Proof.
  destruct client_errors_by_message_prefix as [_ [H2 [_ [_ [H5 [_ H7]]]]]].
  assert (Ha : snd (authenticate http_no_token_field "alice" "pw" w0)
               = Raise (RuntimeError
                          "Authentication failed: No token received from login response"))
    by reflexivity.
  split; [reflexivity|]. split; [reflexivity|].
  split; [exact (H2 http_500 "GET" "http://userservice:8080/users/u1" [] None w0
                   (plain_response 500 "Internal Server Error") eq_refl eq_refl)|].
  split; [exact Ha|].
  split; [exact (H5 http_no_token_field "alice" "pw" w0 _ Ha)|].
  exact (H7 http_down shell_no_fork "acct-9" None w0 _ _ _ eq_refl eq_refl).
Defined.

(** ** C6: the SQL text of the fallback *)

(** C6 (counterexample). The account id is spliced into the SQL text: two
    ids give two different statements, and an id carrying a quote turns the
    statement into one that deletes the ledger. *)
Lemma fallback_sql_is_not_parameterized :
  sql_of "acct-1" <> sql_of "acct-2"
  /\ contains "DELETE FROM transactions" (sql_of "x'; DELETE FROM transactions; --") = true
  /\ contains "DELETE FROM transactions" (cmd_of "x'; DELETE FROM transactions; --") = true.
Proof.
  split; [discriminate|]. split; reflexivity.
Qed.

Lemma str_length_app (a b : string) : String.length (a ++ b) = String.length a + String.length b.
Proof. induction a as [|c a IH]; cbn; [reflexivity|now rewrite IH]. Qed.

Lemma str_app_cancel_l (p a b : string) : p ++ a = p ++ b -> a = b.
Proof.
  induction p as [|c p IH]; cbn; [tauto|].
  intros H. injection H as H. exact (IH H).
Qed.

Lemma str_app_same_length (a b x y : string) :
  String.length a = String.length b -> a ++ x = b ++ y -> a = b.
Proof.
  revert b. induction a as [|c a IH]; intros [|c' b] Hl H; cbn in *;
    try discriminate Hl; [reflexivity|].
  injection H as -> H. f_equal. apply (IH b); [lia|exact H].
Qed.

Lemma sql_of_shape (account_id : string) :
  sql_of account_id = sql_head ++ account_id ++ sql_mid ++ account_id ++ sql_tail.
Proof. reflexivity. Qed.

(** C6 (amended). The fallback's SQL text is [sql_head ++ id ++ sql_mid ++
    id ++ sql_tail]: the account id is spliced verbatim (no binding, no
    escaping) into [WHERE from_acct='<id>' OR to_acct='<id>'], followed by
    [ORDER BY timestamp DESC LIMIT 50]; so the text determines the id (it is
    not a fixed parameterized statement); the whole text is passed to
    [psql -c] through [kubectl exec], quoted for the shell by
    [shlex.quote]. *)
Theorem fallback_sql_interpolates_account_id :
  (forall account_id,
     sql_of account_id = sql_head ++ account_id ++ sql_mid ++ account_id ++ sql_tail)
  /\ sql_tail = "' ORDER BY timestamp DESC LIMIT 50;"
  /\ (forall a b, sql_of a = sql_of b -> a = b)
  /\ (forall account_id,
        cmd_of account_id = psql_prefix ++ "'" ++ shlex_escape (sql_of account_id) ++ "'").
Proof.
  split; [exact sql_of_shape|]. split; [reflexivity|]. split.
  - intros a b H. rewrite !sql_of_shape in H.
    apply str_app_cancel_l in H.
    assert (Hl : String.length a = String.length b).
    { apply (f_equal String.length) in H. rewrite !str_length_app in H. lia. }
    exact (str_app_same_length a b _ _ Hl H).
  - intros a. unfold cmd_of, shlex_quote.
    replace (String.eqb (sql_of a) "") with false by reflexivity.
    replace (forallb shlex_safe (list_ascii_of_string (sql_of a))) with false
      by reflexivity.
    reflexivity.
Qed.

Lemma fallback_sql_interpolates_account_id_witness :
  sql_of "acct-9" = sql_of "acct-9" /\ "acct-9" = "acct-9".
Proof.
  split; [reflexivity|].
  exact (proj1 (proj2 (proj2 fallback_sql_interpolates_account_id))
           "acct-9" "acct-9" eq_refl).
Defined.

(** ** C8: parsing the fallback output *)

Lemma well_formed_row_parse_row (line : list ascii) :
  well_formed_row line = match parse_row line with Some _ => true | None => false end.
Proof.
  unfold well_formed_row, parse_row.
  destruct (5 <=? length (split_comma line)); [|reflexivity].
  destruct (py_int (nth 3 (split_comma line) [])); reflexivity.
Qed.

Lemma parse_row_status (line : list ascii) (t : tx_record) :
  parse_row line = Some t -> tx_status t = "COMPLETED".
Proof.
  unfold parse_row.
  destruct (5 <=? length (split_comma line)); [|discriminate].
  destruct (py_int (nth 3 (split_comma line) [])); [|discriminate].
  intros H. injection H as <-. reflexivity.
Qed.

(** The accumulating loop appends, line by line, the record [parse_row]
    yields. *)
Lemma parse_loop_filter_map (lines : list (list ascii)) (acc : list tx_record) :
  parse_loop lines acc = (acc ++ filter_map parse_row lines)%list.
Proof.
  revert acc. induction lines as [|l ls IH]; intros acc.
  - cbn. rewrite app_nil_r. reflexivity.
  - cbn [parse_loop filter_map]. unfold parse_row.
    destruct (5 <=? length (split_comma l)).
    + destruct (py_int (nth 3 (split_comma l) [])).
      * rewrite IH, <- app_assoc. reflexivity.
      * exact (IH acc).
    + exact (IH acc).
Qed.

Lemma filter_map_parse_row_length (lines : list (list ascii)) :
  length (filter_map parse_row lines) = length (filter well_formed_row lines).
Proof.
  induction lines as [|l ls IH]; [reflexivity|].
  cbn [filter_map filter]. rewrite well_formed_row_parse_row.
  destruct (parse_row l); cbn; rewrite IH; reflexivity.
Qed.

Lemma filter_map_parse_row_status (lines : list (list ascii)) :
  Forall (fun t => tx_status t = "COMPLETED") (filter_map parse_row lines).
Proof.
  induction lines as [|l ls IH]; [constructor|].
  cbn [filter_map]. destruct (parse_row l) as [t|] eqn:Hp; [|exact IH].
  constructor; [exact (parse_row_status l t Hp)|exact IH].
Qed.

(** C8. When the [kubectl] process starts and exits 0, the fallback never
    raises: each non-blank (stripped) line with at least five
    comma-separated fields and a fourth field accepted by [int()] (CPython
    3.11 included: at most 4300 digits) yields exactly one record, with
    status [COMPLETED], in order; every other line yields none;
    [total_count] is the length of the list; with no such line the list is
    empty and the count 0. *)
Theorem fallback_output_parsing shell account_id w pr :
  shell (w_log w) (cmd_of account_id) = Spawned pr ->
  returncode pr = 0%Z ->
  let lines := output_lines (stdout pr) in
  let transactions := filter_map parse_row lines in
  snd (_get_transactions_via_db shell account_id w)
  = Ok (JDict [("account_id", JStr account_id);
               ("transactions", JList (map tx_json transactions));
               ("total_count", JInt (Z.of_nat (length transactions)))])
  /\ (forall line, well_formed_row line = true <-> exists t, parse_row line = Some t)
  /\ length transactions = length (filter well_formed_row lines)
  /\ Forall (fun t => tx_status t = "COMPLETED") transactions
  /\ (filter well_formed_row lines = [] -> transactions = []).
Proof.
  intros Hs Hrc lines transactions.
  split; [|split; [|split; [|split]]].
  - rewrite via_db_run. cbv zeta. rewrite Hs, Hrc. cbn [Z.eqb negb snd].
    unfold history_json. rewrite parse_loop_filter_map. reflexivity.
  - intros line. rewrite well_formed_row_parse_row.
    destruct (parse_row line) as [t|]; split.
    + intros _. exists t. reflexivity.
    + reflexivity.
    + discriminate.
    + intros [t H]. discriminate H.
  - apply filter_map_parse_row_length.
  - apply filter_map_parse_row_status.
  - intros H. apply length_zero_iff_nil.
    unfold transactions. rewrite filter_map_parse_row_length, H. reflexivity.
Qed.

Lemma fallback_output_parsing_witness :
  let pr := mkProc 0 ("t1,acct-9,acct-2,100,2024-01-01T00:00:00" ++ lf ++
                      "t2,acct-3,acct-9,250,2024-01-02T00:00:00" ++ lf) "" in
  shell_two_rows (w_log w0) (cmd_of "acct-9") = Spawned pr
  /\ returncode pr = 0%Z
  /\ snd (_get_transactions_via_db shell_two_rows "acct-9" w0)
     = Ok (JDict [("account_id", JStr "acct-9");
                  ("transactions",
                   JList (map tx_json (filter_map parse_row (output_lines (stdout pr)))));
                  ("total_count",
                   JInt (Z.of_nat (length (filter_map parse_row
                                             (output_lines (stdout pr))))))])
  /\ length (filter_map parse_row (output_lines (stdout pr))) = 2.
Proof.
  intros pr.
  assert (Hs : shell_two_rows (w_log w0) (cmd_of "acct-9") = Spawned pr) by reflexivity.
  assert (Hrc : returncode pr = 0%Z) by reflexivity.
  split; [exact Hs|]. split; [exact Hrc|]. split.
  - exact (proj1 (fallback_output_parsing shell_two_rows "acct-9" w0 pr Hs Hrc)).
  - reflexivity.
Defined.

(** ** C9: the two login requests of [_refresh_token] *)

Lemma same_cookie_key_true (a b : cookie) :
  same_cookie_key a b = true
  <-> ck_domain a = ck_domain b /\ ck_path a = ck_path b /\ ck_name a = ck_name b.
Proof. unfold same_cookie_key. rewrite !andb_true_iff, !String.eqb_eq. tauto. Qed.

Lemma filter_jar_set (n : string) (c : cookie) (jar : list cookie) :
  filter (fun x => String.eqb (ck_name x) n) (jar_set c jar)
  = if String.eqb (ck_name c) n
    then jar_set c (filter (fun x => String.eqb (ck_name x) n) jar)
    else filter (fun x => String.eqb (ck_name x) n) jar.
Proof.
  induction jar as [|c' r IH]; cbn [jar_set].
  - cbn. destruct (String.eqb (ck_name c) n); reflexivity.
  - destruct (same_cookie_key c c') eqn:Hk.
    + assert (Hn : ck_name c' = ck_name c)
        by (apply same_cookie_key_true in Hk; symmetry; apply Hk).
      cbn [filter]. rewrite Hn.
      destruct (String.eqb (ck_name c) n); cbn [jar_set]; [rewrite Hk|]; reflexivity.
    + cbn [filter]. rewrite IH.
      destruct (String.eqb (ck_name c') n), (String.eqb (ck_name c) n);
        cbn [jar_set]; try rewrite Hk; reflexivity.
Qed.

Lemma filter_fold_jar_set (n : string) (cs jar : list cookie) :
  filter (fun x => String.eqb (ck_name x) n) (fold_left (fun jar c => jar_set c jar) cs jar)
  = fold_left (fun jar c => jar_set c jar)
      (filter (fun x => String.eqb (ck_name x) n) cs)
      (filter (fun x => String.eqb (ck_name x) n) jar).
Proof.
  revert jar. induction cs as [|c r IH]; intros jar; [reflexivity|].
  cbn [fold_left]. rewrite IH, filter_jar_set. cbn [filter].
  destruct (String.eqb (ck_name c) n); reflexivity.
Qed.

Lemma insert_cookie_perm (c : cookie) (l : list cookie) :
  Permutation (insert_cookie c l) (c :: l).
Proof.
  induction l as [|c' r IH]; cbn; [reflexivity|].
  destruct (cookie_key_lt c c'); [reflexivity|].
  eapply perm_trans; [apply perm_skip, IH|apply perm_swap].
Qed.

Lemma jar_iter_perm (jar : list cookie) : Permutation (jar_iter jar) jar.
Proof.
  induction jar as [|c r IH]; cbn; [reflexivity|].
  eapply perm_trans; [apply insert_cookie_perm|]. apply perm_skip, IH.
Qed.

Lemma filter_perm {A : Type} (f : A -> bool) (l l' : list A) :
  Permutation l l' -> Permutation (filter f l) (filter f l').
Proof.
  induction 1 as [|x l l' _ IH|x y l|l l' l'' _ IH1 _ IH2]; cbn.
  - reflexivity.
  - destruct (f x); [apply perm_skip|]; exact IH.
  - destruct (f x), (f y); try apply perm_swap; reflexivity.
  - exact (perm_trans IH1 IH2).
Qed.

Lemma cookies_get_filter (n : string) (cs : list cookie) (v : option string) :
  cookies_get n cs v = cookies_get n (filter (fun c => String.eqb (ck_name c) n) cs) v.
Proof.
  revert v. induction cs as [|c r IH]; intros v; [reflexivity|].
  cbn [cookies_get filter].
  destruct (String.eqb (ck_name c) n) eqn:E; cbn [cookies_get]; try rewrite E;
    [destruct v; [reflexivity|apply IH]|apply IH].
Qed.

Lemma existsb_filter {A : Type} (f : A -> bool) (l : list A) :
  existsb f l = match filter f l with [] => false | _ :: _ => true end.
Proof.
  induction l as [|x r IH]; [reflexivity|]. cbn. destruct (f x); [reflexivity|exact IH].
Qed.

(** The token is read from the [token] cookies of the jar only, and that
    part of the jar is, up to order, the jar of the [token] cookies. *)
Lemma login_cookie_token_filtered (r : response) :
  login_cookie_token r
  = if Z.eqb (status_code r) 302 then
      match token_cookies (jar_iter (extract_cookies (cookies r))) with
      | [] => Ok ""
      | c :: l => cookies_getitem "token" (c :: l)
      end
    else Ok "".
Proof.
  unfold login_cookie_token. destruct (Z.eqb (status_code r) 302); [|reflexivity].
  rewrite existsb_filter. unfold cookies_getitem.
  rewrite (cookies_get_filter "token" (jar_iter _)).
  unfold token_cookies. destruct (filter _ _); reflexivity.
Qed.

Lemma token_jar_perm (cs : list cookie) :
  Permutation (token_cookies (jar_iter (extract_cookies cs)))
              (extract_cookies (token_cookies cs)).
Proof.
  eapply perm_trans; [apply filter_perm, jar_iter_perm|].
  unfold token_cookies, extract_cookies. rewrite filter_fold_jar_set. reflexivity.
Qed.

Lemma token_cookies_named (cs : list cookie) (x : cookie) :
  In x (token_cookies cs) -> ck_name x = "token".
Proof. unfold token_cookies. intros H. apply filter_In in H as [_ H]. apply String.eqb_eq, H. Qed.

Lemma fold_jar_set_one_key (c : cookie) (l jar : list cookie) :
  Forall (fun x => same_cookie_key c x = true) l ->
  (jar = [] \/ exists x, jar = [x] /\ same_cookie_key c x = true) ->
  let jar' := fold_left (fun jar c => jar_set c jar) l jar in
  jar' = [] \/ exists x, jar' = [x] /\ same_cookie_key c x = true.
Proof.
  revert jar. induction l as [|y r IH]; intros jar Hl Hj; [exact Hj|].
  inversion Hl as [|y' r' Hy Hr]; subst. cbn [fold_left].
  apply (IH _ Hr). right. exists y. split; [|exact Hy].
  destruct Hj as [->|[x [-> Hx]]]; [reflexivity|].
  cbn. apply same_cookie_key_true in Hx as (Hd & Hp & Hn).
  apply same_cookie_key_true in Hy as (Hd' & Hp' & Hn').
  replace (same_cookie_key y x) with true; [reflexivity|].
  symmetry. apply same_cookie_key_true. split; [|split]; congruence.
Qed.

(** C9 (counterexample). The form login answers 302 with a cookie named
    [token] whose value is empty: the token is not taken from the cookie, a
    JSON login follows and the cached token comes from its body. *)
Lemma empty_token_cookie_falls_through_to_json :
  http_empty_cookie [] (form_login_request "alice" "pw")
  = Responded (mkResponse 302 (Some "text/html") [login_cookie "token" ""] ""
                 (inr no_json_value))
  /\ refresh_token http_empty_cookie "alice" "pw" w0
     = (mkWorld (JStr "jwt-2") (Some TOKEN_LIFETIME) 0
          [EvHttp (form_login_request "alice" "pw"); EvHttp (json_login_request "alice" "pw")],
        Ok tt).
Proof. split; reflexivity. Qed.

(** C9 (amended). [_refresh_token] first sends the form login. On a 302
    answer the token is read from the cookie jar [httpx] builds from the
    response: with no cookie named [token] there is none; when all [token]
    cookies share one domain and path, the last one set wins; two [token]
    cookies of different domains or paths raise [CookieConflict], which
    becomes [Authentication failed: Multiple cookies exist with name=token]
    with no second request. A non-empty token is cached and nothing else is
    sent. Otherwise, when there is an answer (another status, no [token]
    cookie or an empty one), exactly one JSON login follows and, on a 200
    answer whose body is an object, the cached token is that object's
    [token] field ([None] when absent). With no answer to the form login,
    no second request is sent. *)
Theorem refresh_token_login_sequence :
  (forall r, status_code r <> 302%Z -> login_cookie_token r = Ok "")
  /\ (forall r, status_code r = 302%Z -> token_cookies (cookies r) = [] ->
        login_cookie_token r = Ok "")
  /\ (forall r l c,
        status_code r = 302%Z -> token_cookies (cookies r) = (l ++ [c])%list ->
        Forall (fun x => ck_domain x = ck_domain c /\ ck_path x = ck_path c) l ->
        login_cookie_token r
        = match ck_value c with Some v => Ok v | None => Raise (KeyError "token") end)
  /\ (forall r c1 c2,
        status_code r = 302%Z -> token_cookies (cookies r) = [c1; c2] ->
        ck_domain c1 <> ck_domain c2 \/ ck_path c1 <> ck_path c2 ->
        ck_value c1 <> None -> ck_value c2 <> None ->
        login_cookie_token r = Raise (CookieConflict "Multiple cookies exist with name=token"))
  /\ (forall http username password w r1 t,
        http (w_log w) (form_login_request username password) = Responded r1 ->
        login_cookie_token r1 = Ok t -> truthy_str t = true ->
        refresh_token http username password w
        = (mkWorld (JStr t) (Some (w_now w + TOKEN_LIFETIME)%Z) (w_now w)
             (w_log w ++ [EvHttp (form_login_request username password)])%list,
           Ok tt))
  /\ (forall http username password w r1 e,
        http (w_log w) (form_login_request username password) = Responded r1 ->
        login_cookie_token r1 = Raise e ->
        refresh_token http username password w
        = (log_event (EvHttp (form_login_request username password)) w,
           Raise (RuntimeError ("Authentication failed: " ++ exn_str e))))
  /\ (forall http username password w r1 t,
        http (w_log w) (form_login_request username password) = Responded r1 ->
        login_cookie_token r1 = Ok t -> truthy_str t = false ->
        w_log (fst (refresh_token http username password w))
        = (w_log w ++ [EvHttp (form_login_request username password);
                       EvHttp (json_login_request username password)])%list
        /\ (forall r2 kv,
              http (w_log w ++ [EvHttp (form_login_request username password)])%list
                   (json_login_request username password) = Responded r2 ->
              status_code r2 = 200%Z -> json_body r2 = inl (JDict kv) ->
              w_token (fst (refresh_token http username password w))
              = match assoc_last "token" kv None with Some v => v | None => JNull end))
  /\ (forall http username password w m,
        http (w_log w) (form_login_request username password) = NoResponse m ->
        w_log (fst (refresh_token http username password w))
        = (w_log w ++ [EvHttp (form_login_request username password)])%list).
Proof.
  split; [|split; [|split; [|split; [|split; [|split; [|split]]]]]].
  - intros r H. unfold login_cookie_token.
    destruct (Z.eqb_spec (status_code r) 302); [contradiction|reflexivity].
  - intros r Hs Ht. rewrite login_cookie_token_filtered, Hs. cbn [Z.eqb Pos.eqb].
    pose proof (token_jar_perm (cookies r)) as Hp. rewrite Ht in Hp.
    apply Permutation_sym, Permutation_nil in Hp. rewrite Hp. reflexivity.
  - intros r l c Hs Ht Hl. rewrite login_cookie_token_filtered, Hs. cbn [Z.eqb Pos.eqb].
    assert (Hnames : forall x, In x (l ++ [c])%list -> ck_name x = "token").
    { intros x Hx. rewrite <- Ht in Hx. exact (token_cookies_named _ _ Hx). }
    assert (Hc : ck_name c = "token") by (apply Hnames; apply in_or_app; right; left; reflexivity).
    assert (Hkeys : Forall (fun x => same_cookie_key c x = true) l).
    { apply Forall_forall. intros x Hx.
      rewrite Forall_forall in Hl. destruct (Hl x Hx) as [Hd Hp].
      apply same_cookie_key_true. split; [|split]; [congruence|congruence|].
      rewrite Hc. symmetry. apply Hnames, in_or_app. left. exact Hx. }
    assert (Hjar : extract_cookies (l ++ [c]) = [c]).
    { unfold extract_cookies. rewrite fold_left_app.
      destruct (fold_jar_set_one_key c l [] Hkeys (or_introl eq_refl)) as [->|[x [-> Hx]]];
        cbn; [reflexivity|]. rewrite Hx. reflexivity. }
    pose proof (token_jar_perm (cookies r)) as Hp. rewrite Ht, Hjar in Hp.
    apply Permutation_sym, Permutation_length_1_inv in Hp. rewrite Hp.
    unfold cookies_getitem. cbn. rewrite Hc. cbn.
    destruct (ck_value c); reflexivity.
  - intros r c1 c2 Hs Ht Hdiff Hv1 Hv2.
    rewrite login_cookie_token_filtered, Hs. cbn [Z.eqb Pos.eqb].
    assert (Hn1 : ck_name c1 = "token")
      by (apply (token_cookies_named (cookies r)); rewrite Ht; left; reflexivity).
    assert (Hn2 : ck_name c2 = "token")
      by (apply (token_cookies_named (cookies r)); rewrite Ht; right; left; reflexivity).
    assert (Hk : same_cookie_key c2 c1 = false).
    { destruct (same_cookie_key c2 c1) eqn:E; [|reflexivity].
      apply same_cookie_key_true in E as (Hd & Hp & _).
      destruct Hdiff; congruence. }
    assert (Hjar : extract_cookies [c1; c2] = [c1; c2]).
    { unfold extract_cookies. cbn. rewrite Hk. reflexivity. }
    pose proof (token_jar_perm (cookies r)) as Hp. rewrite Ht, Hjar in Hp.
    apply Permutation_sym, Permutation_length_2_inv in Hp.
    destruct (ck_value c1) as [v1|] eqn:E1; [|contradiction].
    destruct (ck_value c2) as [v2|] eqn:E2; [|contradiction].
    destruct Hp as [-> | ->]; unfold cookies_getitem; cbn; rewrite Hn1, Hn2; cbn.
    + rewrite E1; try rewrite E2; reflexivity.
    + rewrite ?E1, ?E2; reflexivity.
  - intros http u p w r1 t Hr Hc Ht. unfold refresh_token, try_except.
    rewrite refresh_token_body_run. cbv zeta. rewrite Hr, Hc, Ht. reflexivity.
  - intros http u p w r1 e Hr Hc. unfold refresh_token, try_except.
    rewrite refresh_token_body_run. cbv zeta. rewrite Hr, Hc. reflexivity.
  - intros http u p w r1 t Hr Hc Ht. unfold refresh_token, try_except.
    rewrite refresh_token_body_run. cbv zeta. rewrite Hr, Hc, Ht.
    destruct (http _ (json_login_request u p)) as [r2|m] eqn:Hj.
    + split.
      * destruct (Z.eqb (status_code r2) 200); [|log_eq].
        destruct (json_body r2) as [data|]; [|log_eq].
        destruct data as [| | | | | |kv]; try log_eq.
        destruct (truthy (match assoc_last "token" kv None with
                          | Some v => v | None => JNull end)); log_eq.
      * intros r2' kv Hj' Hs Hb.
        injection Hj' as <-. rewrite Hs, Hb. cbn [Z.eqb Pos.eqb].
        destruct (truthy (match assoc_last "token" kv None with
                          | Some v => v | None => JNull end)); reflexivity.
    + split; [log_eq|].
      intros r2' kv Hj'. discriminate Hj'.
  - intros http u p w m Hr. unfold refresh_token, try_except.
    rewrite refresh_token_body_run. cbv zeta. rewrite Hr. reflexivity.
Qed.

Lemma refresh_token_login_sequence_witness :
  refresh_token http_login_cookie "alice" "pw" w0
  = (mkWorld (JStr "jwt-1") (Some (w_now w0 + TOKEN_LIFETIME)%Z) (w_now w0)
       (w_log w0 ++ [EvHttp (form_login_request "alice" "pw")])%list, Ok tt)
  /\ login_cookie_token
       (mkResponse 302 None [login_cookie "token" "a"; login_cookie "token" "b"] ""
          (inr no_json_value))
     = Ok "b"
  /\ login_cookie_token
       (mkResponse 302 None [login_cookie "token" "a";
                             mkCookie "userservice.local" "/login" "token" (Some "b")] ""
          (inr no_json_value))
     = Raise (CookieConflict "Multiple cookies exist with name=token").
Proof.
  destruct refresh_token_login_sequence as [_ [_ [H3 [H4 [H5 _]]]]].
  split; [|split].
  - exact (H5 http_login_cookie "alice" "pw" w0
             (mkResponse 302 (Some "text/html") [login_cookie "token" "jwt-1"] ""
                (inr no_json_value)) "jwt-1" eq_refl eq_refl eq_refl).
  - exact (H3 (mkResponse 302 None [login_cookie "token" "a"; login_cookie "token" "b"] ""
                (inr no_json_value))
             [login_cookie "token" "a"] (login_cookie "token" "b") eq_refl eq_refl
             ltac:(repeat constructor)).
  - apply (H4 (mkResponse 302 None [login_cookie "token" "a";
                                   mkCookie "userservice.local" "/login" "token" (Some "b")] ""
                (inr no_json_value))
             (login_cookie "token" "a")
             (mkCookie "userservice.local" "/login" "token" (Some "b")) eq_refl eq_refl);
      [right; discriminate|discriminate|discriminate].
Defined.

(** ** C10: non-JSON success responses *)

Lemma make_request_plain http method url headers json_arg w r :
  http (w_log w) (build_request method url headers json_arg) = Responded r ->
  plain_success r = true ->
  snd (_make_request http method url headers json_arg w)
  = Ok (JDict [("response", JStr (text r))]).
Proof.
  intros Hr Hp. rewrite make_request_result, Hr.
  unfold plain_success in Hp. apply andb_prop in Hp as [Hs Hc].
  rewrite Hs. apply negb_true_iff in Hc. cbn [negb]. rewrite Hc. reflexivity.
Qed.

(** C10. A 2xx response whose content type does not contain
    [application/json] makes [_make_request] return [{'response': text}],
    and each operation built on it passes that dictionary to its caller:
    [get_transactions] (no fallback then), [get_user_details],
    [lock_account], [submit_transaction], [get_account_balance],
    [get_contacts] and [add_contact]. *)
Theorem non_json_success_is_wrapped :
  (forall http method url headers json_arg w r,
     http (w_log w) (build_request method url headers json_arg) = Responded r ->
     plain_success r = true ->
     snd (_make_request http method url headers json_arg w)
     = Ok (JDict [("response", JStr (text r))]))
  /\ (forall http shell account_id token w r,
        http (w_log w) (primary_request account_id token) = Responded r ->
        plain_success r = true ->
        snd (get_transactions http shell account_id token w)
        = Ok (JDict [("response", JStr (text r))]))
  /\ (forall http user_id token w r,
        http (w_log w) (build_request "GET" (BANK_BASE_URL ++ "/users/" ++ user_id)
                          (bearer_headers token) None) = Responded r ->
        plain_success r = true ->
        snd (get_user_details http user_id token w) = Ok (JDict [("response", JStr (text r))]))
  /\ (forall http user_id reason token w r,
        http (w_log w) (build_request "POST" (BANK_BASE_URL ++ "/users/" ++ user_id ++ "/lock")
                          (bearer_headers token)
                          (Some (JDict [("reason", JStr reason)]))) = Responded r ->
        plain_success r = true ->
        snd (lock_account http user_id reason token w)
        = Ok (JDict [("response", JStr (text r))]))
  /\ (forall http data w r,
        http (w_log w) (build_request "POST" (LEDGER_WRITER_URL ++ "/transactions") []
                          (Some data)) = Responded r ->
        plain_success r = true ->
        snd (submit_transaction http data w) = Ok (JDict [("response", JStr (text r))]))
  /\ (forall http account_id token w r,
        http (w_log w) (build_request "GET" (BALANCES_URL ++ "/balances/" ++ account_id)
                          (bearer_headers token) None) = Responded r ->
        plain_success r = true ->
        snd (get_account_balance http account_id token w)
        = Ok (JDict [("response", JStr (text r))]))
  /\ (forall http user_id token w r,
        http (w_log w) (build_request "GET" (CONTACTS_URL ++ "/contacts/" ++ user_id)
                          (bearer_headers token) None) = Responded r ->
        plain_success r = true ->
        snd (get_contacts http user_id token w) = Ok (JDict [("response", JStr (text r))]))
  /\ (forall http user_id data token w r,
        http (w_log w) (build_request "POST" (CONTACTS_URL ++ "/contacts/" ++ user_id)
                          (bearer_headers token) (Some data)) = Responded r ->
        plain_success r = true ->
        snd (add_contact http user_id data token w)
        = Ok (JDict [("response", JStr (text r))])).
Proof.
  split; [exact make_request_plain|].
  split.
  { intros http sh a tok w r Hr Hp.
    pose proof (make_request_plain http "GET"
                  (TRANSACTION_HISTORY_URL ++ "/transactions/" ++ a)
                  (bearer_headers tok) None w r Hr Hp) as H.
    unfold get_transactions, try_except.
    destruct (_make_request http _ _ _ _ w) as [w1 [j|e]]; cbn in H |- *;
      [exact H|discriminate H]. }
  repeat split; intros; eapply make_request_plain; eassumption.
Qed.

Lemma non_json_success_is_wrapped_witness :
  http_text_ok (w_log w0) (build_request "GET" (BANK_BASE_URL ++ "/users/" ++ "alice")
                             (bearer_headers (Some "jwt-1")) None)
  = Responded (mkResponse 200 (Some "text/plain; charset=utf-8") [] "OK" (inr no_json_value))
  /\ plain_success (mkResponse 200 (Some "text/plain; charset=utf-8") [] "OK" (inr no_json_value)) = true
  /\ snd (get_user_details http_text_ok "alice" (Some "jwt-1") w0)
     = Ok (JDict [("response", JStr "OK")]).
Proof.
  assert (Hr : http_text_ok (w_log w0)
                 (build_request "GET" (BANK_BASE_URL ++ "/users/" ++ "alice")
                    (bearer_headers (Some "jwt-1")) None)
               = Responded (mkResponse 200 (Some "text/plain; charset=utf-8") [] "OK" (inr no_json_value)))
    by reflexivity.
  split; [exact Hr|]. split; [reflexivity|].
  exact (proj1 (proj2 (proj2 non_json_success_is_wrapped))
           http_text_ok "alice" (Some "jwt-1") w0 _ Hr eq_refl).
Defined.

(** ** Further properties: the database fallback *)

Lemma list_ascii_of_string_app (a b : string) :
  list_ascii_of_string (a ++ b) = (list_ascii_of_string a ++ list_ascii_of_string b)%list.
Proof. induction a as [|c a IH]; cbn; [reflexivity|now rewrite IH]. Qed.

Lemma digit_char_value (m : N) :
  (m < 10)%N -> digit_value (ascii_of_N (48 + m)) = Some (Z.of_N m).
Proof.
  intros H.
  assert (m = 0 \/ m = 1 \/ m = 2 \/ m = 3 \/ m = 4 \/ m = 5 \/ m = 6 \/ m = 7
          \/ m = 8 \/ m = 9)%N as Hm by lia.
  repeat destruct Hm as [Hm|Hm]; subst m; reflexivity.
Qed.

Lemma digit_value_not_space (c : ascii) (d : Z) :
  digit_value c = Some d -> is_space c = false /\ c <> ","%char /\ c <> "-"%char
                            /\ c <> "+"%char /\ (nat_of_ascii c < 128).
Proof.
  unfold digit_value, is_space. intros H.
  destruct ((48 <=? nat_of_ascii c) && (nat_of_ascii c <=? 57)) eqn:E; [|discriminate].
  apply andb_true_iff in E as [E1 E2]. apply Nat.leb_le in E1, E2.
  repeat split.
  - apply orb_false_iff; split; apply andb_false_iff;
      right; apply Nat.leb_gt; lia.
  - intros ->. cbn in E1. lia.
  - intros ->. cbn in E1. lia.
  - intros ->. cbn in E1. lia.
  - lia.
Qed.

Lemma digits_aux_S (f : nat) (n : N) (acc : string) :
  digits_aux (S f) n acc =
  (let acc' := String (ascii_of_N (48 + N.modulo n 10)) acc in
   if (n <? 10)%N then acc' else digits_aux f (N.div n 10) acc').
Proof. reflexivity. Qed.

(** The digits [digits_aux] emits before [acc]. *)
Lemma digits_aux_spec (fuel : nat) : forall (n : N) (acc : string),
  (n < 10 ^ N.of_nat (S fuel))%N ->
  exists ds, list_ascii_of_string (digits_aux (S fuel) n acc) = (ds ++ list_ascii_of_string acc)%list
    /\ ds <> []
    /\ (forall c, In c ds -> exists d, digit_value c = Some d)
    /\ (forall a b rest, parse_digits (ds ++ rest) a b
                         = parse_digits rest (a * 10 ^ Z.of_nat (length ds) + Z.of_N n)%Z true)
    /\ (forall k, (n < 10 ^ N.of_nat k)%N -> 1 <= k -> length ds <= k).
Proof.
  induction fuel as [|f IH]; intros n acc Hn.
  - cbn [digits_aux]. replace (n <? 10)%N with true by (symmetry; apply N.ltb_lt; cbn in Hn; lia).
    exists [ascii_of_N (48 + n mod 10)]. cbn [list_ascii_of_string].
    rewrite N.mod_small by (cbn in Hn; lia).
    split; [reflexivity|]. split; [discriminate|]. split.
    + intros c [<-|[]]. exists (Z.of_N n). apply digit_char_value. cbn in Hn; lia.
    + split.
      * intros a b rest. cbn [app parse_digits]. rewrite digit_char_value by (cbn in Hn; lia).
        f_equal; cbn; lia.
      * intros k _ Hk. cbn. lia.
  - rewrite digits_aux_S. cbv zeta.
    set (d := ascii_of_N (48 + n mod 10)).
    destruct (n <? 10)%N eqn:E.
    + apply N.ltb_lt in E. exists [d]. split; [reflexivity|]. split; [discriminate|].
      unfold d; rewrite N.mod_small by exact E. split.
      * intros c [<-|[]]. exists (Z.of_N n). apply digit_char_value; exact E.
      * split.
        -- intros a b rest. cbn [app parse_digits]. rewrite digit_char_value by exact E.
           f_equal; cbn; lia.
        -- intros k _ Hk. cbn. lia.
    + apply N.ltb_ge in E.
      assert (Hq : (n / 10 < 10 ^ N.of_nat (S f))%N).
      { apply N.Div0.div_lt_upper_bound.
        rewrite Nat2N.inj_succ, N.pow_succ_r' in Hn. lia. }
      destruct (IH (n / 10)%N (String d acc) Hq) as (ds & Hl & Hne & Hd & Hp & Hlen).
      exists (ds ++ [d])%list. split; [rewrite Hl, <- app_assoc; reflexivity|].
      split; [destruct ds; discriminate|]. split.
      * intros c Hc. apply in_app_or in Hc as [Hc|[<-|[]]]; [now apply Hd|].
        exists (Z.of_N (n mod 10)). apply digit_char_value. apply N.mod_lt. discriminate.
      * split.
        2:{ intros k Hk Hk1. destruct k as [|k']; [lia|]. destruct k' as [|k''].
            - cbn in Hk. lia.
            - rewrite length_app. cbn [length].
              enough (length ds <= S k'') by lia.
              apply Hlen; [|lia]. apply N.Div0.div_lt_upper_bound.
              rewrite Nat2N.inj_succ, N.pow_succ_r' in Hk. exact Hk. }
        intros a b rest. rewrite <- app_assoc, Hp. cbn [app parse_digits].
        unfold d. rewrite digit_char_value by (apply N.mod_lt; discriminate).
        f_equal. rewrite length_app, Nat2Z.inj_add, Z.pow_add_r by lia.
        pose proof (N.div_mod n 10 ltac:(discriminate)) as Hdm.
        assert (Z.of_N n = 10 * Z.of_N (n / 10) + Z.of_N (n mod 10))%Z as Hz
          by (rewrite Hdm at 1; rewrite N2Z.inj_add, N2Z.inj_mul; reflexivity).
        rewrite Hz. change (Z.of_nat (length [d])) with 1%Z. rewrite Z.pow_1_r. ring.
Qed.

Lemma pos_lt_pow_size (p : positive) : (Z.pos p < 2 ^ Z.of_nat (Pos.size_nat p))%Z.
Proof.
  induction p as [p IH|p IH|]; cbn [Pos.size_nat]; rewrite ?Nat2Z.inj_succ, ?Z.pow_succ_r by lia;
    lia.
Qed.

Lemma N_lt_pow_size (n : N) : (n < 10 ^ N.of_nat (S (N.size_nat n)))%N.
Proof.
  destruct n as [|p]; [cbn; lia|].
  cbn [N.size_nat]. pose proof (pos_lt_pow_size p) as H.
  assert (H2 : (2 ^ Z.of_nat (Pos.size_nat p) <= 10 ^ Z.of_nat (S (Pos.size_nat p)))%Z).
  { rewrite Nat2Z.inj_succ, Z.pow_succ_r by lia.
    assert (2 ^ Z.of_nat (Pos.size_nat p) <= 10 ^ Z.of_nat (Pos.size_nat p))%Z
      by (apply Z.pow_le_mono_l; lia).
    lia. }
  apply N2Z.inj_lt. rewrite N2Z.inj_pow, nat_N_Z. cbn [Z.of_N]. lia.
Qed.

Lemma strip_id (l : list ascii) : (forall c, In c l -> is_space c = false) -> strip l = l.
Proof.
  intros H. unfold strip.
  assert (Hl : forall l', (forall c, In c l' -> is_space c = false) -> lstrip l' = l').
  { intros [|c r] H'; [reflexivity|]. cbn. rewrite (H' c (or_introl eq_refl)). reflexivity. }
  rewrite (Hl l H), (Hl (rev l)), rev_involutive; [reflexivity|].
  intros c Hc. apply H. apply in_rev. exact Hc.
Qed.

(** The characters of [str(z)]: neither space nor comma. *)
Lemma Z_to_string_chars (z : Z) :
  forall c, In c (list_ascii_of_string (Z_to_string z)) ->
  is_space c = false /\ c <> ","%char /\ (nat_of_ascii c < 128).
Proof.
  intros c Hc. unfold Z_to_string, N_to_string in Hc.
  destruct (z <? 0)%Z.
  - rewrite list_ascii_of_string_app in Hc.
    destruct (digits_aux_spec _ (Z.to_N (- z)) "" (N_lt_pow_size _)) as (ds & Hl & _ & Hd & _).
    rewrite Hl, app_nil_r in Hc. destruct Hc as [<-|Hc].
    + repeat split; first [reflexivity | discriminate | (cbn; lia)].
    + destruct (Hd c Hc) as [d Hv]. apply digit_value_not_space in Hv. tauto.
  - destruct (digits_aux_spec _ (Z.to_N z) "" (N_lt_pow_size _)) as (ds & Hl & _ & Hd & _).
    rewrite Hl, app_nil_r in Hc.
    destruct (Hd c Hc) as [d Hv]. apply digit_value_not_space in Hv. tauto.
Qed.

Lemma filter_all {A : Type} (f : A -> bool) (l : list A) :
  (forall x, In x l -> f x = true) -> filter f l = l.
Proof.
  induction l as [|x r IH]; intros H; [reflexivity|].
  cbn. rewrite (H x (or_introl eq_refl)), IH; [reflexivity|].
  intros y Hy. apply H. right. exact Hy.
Qed.

(** [int()] reads back the digits [digits_aux] emits, when there are at
    most [int_max_str_digits] of them. *)
Lemma parse_unsigned_digits (ds : list ascii) (n : N) :
  (forall c, In c ds -> exists d, digit_value c = Some d) ->
  (forall a b rest, parse_digits (ds ++ rest) a b
                    = parse_digits rest (a * 10 ^ Z.of_nat (length ds) + Z.of_N n)%Z true) ->
  length ds <= int_max_str_digits ->
  parse_unsigned ds = Some (Z.of_N n).
Proof.
  intros Hd Hp Hlen. unfold parse_unsigned.
  rewrite filter_all by (intros c Hc; destruct (Hd c Hc) as [d Hv];
                         unfold is_digit; rewrite Hv; reflexivity).
  destruct (int_max_str_digits <? length ds) eqn:E; [apply Nat.ltb_lt in E; lia|].
  rewrite <- (app_nil_r ds), Hp. cbn. reflexivity.
Qed.

Lemma digits_within_limit (fuel : nat) (n : N) (ds : list ascii) :
  (Z.of_N n < 10 ^ Z.of_nat int_max_str_digits)%Z ->
  (forall k, (n < 10 ^ N.of_nat k)%N -> 1 <= k -> length ds <= k) ->
  length ds <= int_max_str_digits.
Proof.
  intros Hn Hlen. apply Hlen.
  - apply N2Z.inj_lt. rewrite N2Z.inj_pow, nat_N_Z. exact Hn.
  - apply Nat.leb_le. reflexivity.
Qed.

Lemma py_int_Z_to_string (z : Z) :
  (Z.abs z < 10 ^ Z.of_nat int_max_str_digits)%Z ->
  py_int (list_ascii_of_string (Z_to_string z)) = Some z.
Proof.
  intros Hz.
  unfold py_int. rewrite strip_id by (intros c Hc; apply (Z_to_string_chars z c Hc)).
  unfold Z_to_string, N_to_string.
  destruct (z <? 0)%Z eqn:Ez.
  - apply Z.ltb_lt in Ez.
    destruct (digits_aux_spec _ (Z.to_N (- z)) "" (N_lt_pow_size _))
      as (ds & Hl & _ & Hd & Hp & Hlen).
    rewrite list_ascii_of_string_app, Hl, app_nil_r. cbn [list_ascii_of_string app].
    rewrite Ascii.eqb_refl. cbn [option_map].
    rewrite (parse_unsigned_digits ds (Z.to_N (- z)) Hd Hp).
    + cbn. f_equal. lia.
    + apply (digits_within_limit 0 (Z.to_N (- z))); [|exact Hlen].
      rewrite Z2N.id by lia. rewrite Z.abs_neq in Hz by lia. exact Hz.
  - apply Z.ltb_ge in Ez.
    destruct (digits_aux_spec _ (Z.to_N z) "" (N_lt_pow_size _))
      as (ds & Hl & Hne & Hd & Hp & Hlen).
    rewrite Hl, app_nil_r.
    assert (Hu : parse_unsigned ds = Some z).
    { rewrite (parse_unsigned_digits ds (Z.to_N z) Hd Hp).
      - f_equal. apply Z2N.id. exact Ez.
      - apply (digits_within_limit 0 (Z.to_N z)); [|exact Hlen].
        rewrite Z2N.id by exact Ez. rewrite Z.abs_eq in Hz by exact Ez. exact Hz. }
    destruct ds as [|c r]; [contradiction|].
    destruct (Hd c (or_introl eq_refl)) as [d Hv].
    apply digit_value_not_space in Hv as (_ & _ & Hm & Hpl & _).
    destruct (Ascii.eqb c "-"%char) eqn:E1; [apply Ascii.eqb_eq in E1; contradiction|].
    destruct (Ascii.eqb c "+"%char) eqn:E2; [apply Ascii.eqb_eq in E2; contradiction|].
    exact Hu.
Qed.

Lemma split_comma_aux_plain (a rest cur : list ascii) :
  (forall c, In c a -> c <> ","%char) ->
  split_comma_aux (a ++ rest) cur = split_comma_aux rest (rev a ++ cur).
Proof.
  revert cur; induction a as [|c a IH]; intros cur H; [reflexivity|].
  cbn [app split_comma_aux].
  destruct (Ascii.eqb c ","%char) eqn:E.
  - apply Ascii.eqb_eq in E. exfalso. exact (H c (or_introl eq_refl) E).
  - rewrite IH by (intros x Hx; apply H; right; exact Hx). cbn. rewrite <- app_assoc. reflexivity.
Qed.

Lemma split_comma_field (a rest : list ascii) :
  (forall c, In c a -> c <> ","%char) ->
  split_comma_aux (a ++ ","%char :: rest) [] = a :: split_comma_aux rest [].
Proof.
  intros H. rewrite split_comma_aux_plain by exact H. cbn. rewrite app_nil_r, rev_involutive.
  reflexivity.
Qed.

Lemma split_comma_last (a : list ascii) :
  (forall c, In c a -> c <> ","%char) -> split_comma_aux a [] = [a].
Proof.
  intros H. rewrite <- (app_nil_r a) at 1. rewrite split_comma_aux_plain by exact H.
  cbn. rewrite app_nil_r, rev_involutive. reflexivity.
Qed.

Lemma plain_field_chars (s : string) :
  plain_field s = true -> forall c, In c (list_ascii_of_string s) ->
  is_space c = false /\ c <> ","%char /\ (nat_of_ascii c < 128).
Proof.
  unfold plain_field. rewrite forallb_forall. intros H c Hc.
  specialize (H c Hc). apply andb_true_iff in H as [H H3]. apply andb_true_iff in H as [H1 H2].
  apply negb_true_iff in H2, H3. apply Nat.ltb_lt in H1.
  split; [exact H3|]. split; [|exact H1].
  intros ->. discriminate.
Qed.

Lemma psql_row_chars (t : tx_record) :
  plain_row t = true ->
  forall c, In c (list_ascii_of_string (psql_row t)) -> is_space c = false /\ c <> ","%char \/ c = ","%char.
Proof.
  unfold plain_row. intros H.
  repeat (apply andb_true_iff in H as [H ?]).
  intros c Hc. unfold psql_row in Hc.
  repeat rewrite list_ascii_of_string_app in Hc.
  repeat (apply in_app_or in Hc as [Hc|Hc]);
    lazymatch type of Hc with
    | In c (list_ascii_of_string (Z_to_string ?z)) =>
        left; destruct (Z_to_string_chars z c Hc) as (? & ? & _); split; assumption
    | In c (list_ascii_of_string ?s) =>
        match goal with
        | Hp : plain_field s = true |- _ => left; destruct (plain_field_chars s Hp c Hc) as (? & ? & _); split; assumption
        | _ => cbn in Hc; destruct Hc as [<-|[]]; right; reflexivity
        end
    end.
Qed.

Lemma parse_psql_row (t : tx_record) :
  plain_row t = true -> parse_row (list_ascii_of_string (psql_row t)) = Some t.
Proof.
  intros H. pose proof H as H'. unfold plain_row in H'.
  apply andb_true_iff in H' as [H' Hst]. apply andb_true_iff in H' as [H' Hamt].
  repeat (apply andb_true_iff in H' as [H' ?]).
  assert (Hn : forall s, plain_field s = true -> forall c, In c (list_ascii_of_string s) -> c <> ","%char)
    by (intros s Hs c Hc; apply (plain_field_chars s Hs c Hc)).
  assert (Hz : forall c, In c (list_ascii_of_string (Z_to_string (amount t))) -> c <> ","%char)
    by (intros c Hc; apply (Z_to_string_chars _ c Hc)).
  unfold parse_row, split_comma, psql_row.
  repeat rewrite list_ascii_of_string_app. cbn [list_ascii_of_string app].
  do 4 (rewrite split_comma_field by first [exact Hz | apply Hn; assumption]).
  rewrite split_comma_last by (apply Hn; assumption).
  cbn [length Nat.leb nth]. rewrite py_int_Z_to_string by (apply Z.ltb_lt; exact Hamt).
  clear Hamt. unfold part. cbn [nth]. rewrite !string_of_list_ascii_of_string.
  apply String.eqb_eq in Hst.
  destruct t as [i f to a ts st]. cbn in Hst |- *. subst st. reflexivity.
Qed.

Lemma is_space_false_not_break (c : ascii) :
  is_space c = false -> Ascii.eqb c "013"%char = false /\ is_line_break c = false.
Proof.
  intros H. split.
  - destruct (Ascii.eqb c "013"%char) eqn:E; [|reflexivity].
    apply Ascii.eqb_eq in E. subst c. discriminate.
  - destruct (is_line_break c) eqn:E; [|reflexivity]. exfalso.
    unfold is_line_break in E. unfold is_space in H.
    repeat (apply orb_true_iff in E as [E|E]); apply Nat.eqb_eq in E; rewrite E in H; discriminate.
Qed.

Lemma splitlines_aux_plain (l rest cur : list ascii) :
  (forall c, In c l -> is_space c = false) ->
  splitlines_aux (l ++ rest) cur = splitlines_aux rest (rev l ++ cur).
Proof.
  revert cur; induction l as [|c l IH]; intros cur H; [reflexivity|].
  destruct (is_space_false_not_break c (H c (or_introl eq_refl))) as [E1 E2].
  cbn [app splitlines_aux]. rewrite E1, E2.
  rewrite IH by (intros x Hx; apply H; right; exact Hx). cbn. rewrite <- app_assoc. reflexivity.
Qed.

Lemma psql_row_no_space (t : tx_record) :
  plain_row t = true -> forall c, In c (list_ascii_of_string (psql_row t)) -> is_space c = false.
Proof.
  intros H c Hc. destruct (psql_row_chars t H c Hc) as [[? _] | ->]; [assumption|reflexivity].
Qed.

Lemma splitlines_psql_output (rows : list tx_record) :
  forallb plain_row rows = true ->
  splitlines (list_ascii_of_string (psql_output rows))
  = map (fun t => list_ascii_of_string (psql_row t)) rows.
Proof.
  unfold splitlines. induction rows as [|t rows IH]; intros H; [reflexivity|].
  cbn [forallb] in H. apply andb_true_iff in H as [Ht Hr].
  cbn [psql_output fold_right]. fold (psql_output rows).
  rewrite !list_ascii_of_string_app.
  rewrite splitlines_aux_plain by (apply psql_row_no_space; exact Ht).
  cbn. rewrite app_nil_r, rev_involutive, IH by exact Hr. reflexivity.
Qed.


Lemma psql_row_nonempty (t : tx_record) : list_ascii_of_string (psql_row t) <> [].
Proof.
  unfold psql_row. rewrite list_ascii_of_string_app.
  destruct (list_ascii_of_string (transaction_id t)); discriminate.
Qed.

Lemma output_lines_psql_output (rows : list tx_record) :
  forallb plain_row rows = true ->
  output_lines (psql_output rows) = map (fun t => list_ascii_of_string (psql_row t)) rows.
Proof.
  intros H. unfold output_lines. rewrite splitlines_psql_output by exact H.
  induction rows as [|t rows IH]; [reflexivity|].
  cbn [forallb] in H. apply andb_true_iff in H as [Ht Hr].
  cbn [map filter].
  rewrite !(strip_id (list_ascii_of_string (psql_row t))) by (apply psql_row_no_space; exact Ht).
  pose proof (psql_row_nonempty t) as Hne. pose proof (psql_row_no_space t Ht) as Hs.
  revert Hne Hs. destruct (list_ascii_of_string (psql_row t)) as [|c l]; intros Hne Hs;
    [contradiction|].
  cbn [map]. rewrite (strip_id _ Hs), (IH Hr). reflexivity.
Qed.

Lemma filter_map_parse_psql_rows (rows : list tx_record) :
  forallb plain_row rows = true ->
  filter_map parse_row (map (fun t => list_ascii_of_string (psql_row t)) rows) = rows.
Proof.
  induction rows as [|t rows IH]; intros H; [reflexivity|].
  cbn [forallb] in H. apply andb_true_iff in H as [Ht Hr].
  cbn [map filter_map]. rewrite parse_psql_row by exact Ht. rewrite (IH Hr). reflexivity.
Qed.

(** X1: when [kubectl] exits with status 0 and prints rows in the format of
    [psql -t -A -F ,] (ASCII text columns without commas or whitespace),
    the fallback returns exactly those rows, in order, and runs one command. *)
Theorem fallback_reads_back_psql_rows shell account_id rows err w :
  forallb plain_row rows = true ->
  shell (w_log w) (cmd_of account_id) = Spawned (mkProc 0 (psql_output rows) err) ->
  _get_transactions_via_db shell account_id w =
  (log_event (EvShell (cmd_of account_id)) w, Ok (history_json account_id rows)).
Proof.
  intros Hrows Hsh. rewrite via_db_run. cbv zeta. rewrite Hsh. cbn [returncode stdout Z.eqb negb].
  rewrite output_lines_psql_output by exact Hrows.
  rewrite parse_loop_filter_map, filter_map_parse_psql_rows by exact Hrows. reflexivity.
Qed.

(** ** Further properties: the JSON-RPC bridge of the REST wrapper *)

Section RpcProofs.
Variable http : list event -> request -> http_outcome.
Variable tg : json -> json -> M json.
Variable tl : json -> json -> json -> M json.
Variable ta : json -> json -> M json.

(** X7: [initialize] answers the fixed capabilities with the request's id
    and performs no action. *)
Theorem rpc_initialize kv w :
  dget kv "method" JNull = JStr "initialize" ->
  jsonrpc_handler http tg tl ta (inl (JDict kv)) w
  = (w, Ok (rpc_result (dget kv "id" JNull) initialize_result)).
Proof.
  intros Hm. unfold jsonrpc_handler, rpc_dispatch, try_except, bind. cbn [py_get ret].
  rewrite Hm. reflexivity.
Qed.

(** X8: [get_transactions] without a truthy [account_id], and
    [get_user_details] without a truthy [user_id], are answered with error
    code 400 [Missing <key>] and id [None], before any login or request. *)
Theorem rpc_missing_id kv pkv akv tool key w :
  dget kv "method" JNull = JStr "tools/call" ->
  dget kv "params" (JDict []) = JDict pkv ->
  dget pkv "name" JNull = JStr tool ->
  dget pkv "arguments" (JDict []) = JDict akv ->
  In (tool, key) [("get_transactions", "account_id"); ("get_user_details", "user_id")] ->
  truthy (dget akv key JNull) = false ->
  jsonrpc_handler http tg tl ta (inl (JDict kv)) w
  = (w, Ok (rpc_error JNull 400 ("Missing " ++ key))).
Proof.
  intros Hm Hp Hn Ha Hin Hid.
  destruct Hin as [Heq|[Heq|[]]]; injection Heq as <- <-;
  unfold jsonrpc_handler, rpc_dispatch, rpc_tools_call, try_except, bind; cbn [py_get ret];
  rewrite Hm, Hp; cbn [py_get ret is_str String.eqb]; rewrite Hn, Ha; cbn [py_get ret];
  rewrite Hid; reflexivity.
Qed.


Lemma fetch_token_run w :
  fetch_token http w =
  match get_valid_token http AUTH_USERNAME AUTH_PASSWORD w with
  | (w1, Ok t) => (w1, Ok t)
  | (w1, Raise _) => (w1, Ok JNull)
  end.
Proof.
  unfold fetch_token, try_except. cbn [truthy_str AUTH_USERNAME AUTH_PASSWORD andb].
  destruct (get_valid_token http AUTH_USERNAME AUTH_PASSWORD w) as [w1 [t|e]]; reflexivity.
Qed.

(** X9: a bridged [get_transactions] asks the AuthManager for the token of
    the service account [AUTH_USERNAME], goes on with [None] if that raises,
    and answers the client's result as text with the request's id, or its
    error with code -32000 and id [None]. *)
Theorem rpc_get_transactions_run kv pkv akv w w1 rt w2 r :
  dget kv "method" JNull = JStr "tools/call" ->
  dget kv "params" (JDict []) = JDict pkv ->
  dget pkv "name" JNull = JStr "get_transactions" ->
  dget pkv "arguments" (JDict []) = JDict akv ->
  truthy (dget akv "account_id" JNull) = true ->
  get_valid_token http AUTH_USERNAME AUTH_PASSWORD w = (w1, rt) ->
  tg (dget akv "account_id" JNull) (match rt with Ok t => t | Raise _ => JNull end) w1 = (w2, r) ->
  jsonrpc_handler http tg tl ta (inl (JDict kv)) w
  = (w2, Ok (match r with
             | Ok res => rpc_result (dget kv "id" JNull) (text_content res)
             | Raise e => rpc_error JNull (-32000) (exn_str e)
             end)).
Proof.
  intros Hm Hp Hn Ha Hid Hv Ht.
  unfold jsonrpc_handler, rpc_dispatch, rpc_tools_call, try_except, bind; cbn [py_get ret].
  rewrite Hm, Hp; cbn [py_get ret is_str String.eqb]; rewrite Hn, Ha; cbn [py_get ret].
  cbn -[fetch_token text_content rpc_result rpc_error]. rewrite Hid. cbn [negb]. rewrite fetch_token_run, Hv.
  destruct rt as [t|e]; rewrite Ht; destruct r; reflexivity.
Qed.


(** X10: a [tools/call] of any other tool name is answered with error code
    -32601 and [Unknown tool: <name>], with no action. *)
Theorem rpc_unknown_tool kv pkv w :
  dget kv "method" JNull = JStr "tools/call" ->
  dget kv "params" (JDict []) = JDict pkv ->
  forallb (fun tool => negb (is_str (dget pkv "name" JNull) tool))
    ["get_transactions"; "get_user_details"; "lock_account"; "submit_transaction";
     "authenticate_user"] = true ->
  jsonrpc_handler http tg tl ta (inl (JDict kv)) w
  = (w, Ok (rpc_error (dget kv "id" JNull) (-32601)
                      ("Unknown tool: " ++ py_str (dget pkv "name" JNull)))).
Proof.
  intros Hm Hp Hn. cbn [forallb] in Hn.
  repeat (apply andb_true_iff in Hn as [?H Hn]). apply negb_true_iff in H, H0, H1, H2, H3.
  unfold jsonrpc_handler, rpc_dispatch, rpc_tools_call, try_except, bind; cbn [py_get ret].
  rewrite Hm, Hp. cbn -[is_str rpc_error py_str]. rewrite H, H0, H1, H2, H3. reflexivity.
Qed.

(** X11: a method other than [initialize] and [tools/call] is answered
    with error code -32601 [Method not found] and the request's id. *)
Theorem rpc_method_not_found kv w :
  is_str (dget kv "method" JNull) "initialize" = false ->
  is_str (dget kv "method" JNull) "tools/call" = false ->
  jsonrpc_handler http tg tl ta (inl (JDict kv)) w
  = (w, Ok (rpc_error (dget kv "id" JNull) (-32601) "Method not found")).
Proof.
  intros H1 H2.
  unfold jsonrpc_handler, rpc_dispatch, try_except, bind; cbn [py_get ret].
  rewrite H1, H2. reflexivity.
Qed.

(** X12: a body that is not JSON, or whose value is not an object, is
    answered with error code -32000, id [None] and the message of the
    exception, with no action. *)
Theorem rpc_bad_body w :
  (forall msg, jsonrpc_handler http tg tl ta (inr msg) w = (w, Ok (rpc_error JNull (-32000) msg))) /\
  (forall body, match body with JDict _ => False | _ => True end ->
   jsonrpc_handler http tg tl ta (inl body) w
   = (w, Ok (rpc_error JNull (-32000)
                ("'" ++ py_type_name body ++ "' object has no attribute 'get'")))).
Proof.
  split; [reflexivity|].
  intros body Hb. destruct body; try contradiction; reflexivity.
Qed.

(** X13: [lock_account] is bridged without any check: with no [user_id] and
    no [reason] the client is called with [None] and ['security']. *)
Theorem rpc_lock_account_unchecked kv pkv akv w w1 rt w2 r :
  dget kv "method" JNull = JStr "tools/call" ->
  dget kv "params" (JDict []) = JDict pkv ->
  dget pkv "name" JNull = JStr "lock_account" ->
  dget pkv "arguments" (JDict []) = JDict akv ->
  assoc_last "user_id" akv None = None ->
  assoc_last "reason" akv None = None ->
  get_valid_token http AUTH_USERNAME AUTH_PASSWORD w = (w1, rt) ->
  tl JNull (JStr "security") (match rt with Ok t => t | Raise _ => JNull end) w1 = (w2, r) ->
  jsonrpc_handler http tg tl ta (inl (JDict kv)) w
  = (w2, Ok (match r with
             | Ok res => rpc_result (dget kv "id" JNull) (text_content res)
             | Raise e => rpc_error JNull (-32000) (exn_str e)
             end)).
Proof.
  intros Hm Hp Hn Ha Hu Hr Hv Ht.
  unfold jsonrpc_handler, rpc_dispatch, rpc_tools_call, try_except, bind; cbn [py_get ret].
  rewrite Hm, Hp; cbn [py_get ret is_str String.eqb]; rewrite Hn, Ha; cbn [py_get ret].
  cbn -[fetch_token text_content rpc_result rpc_error].
  unfold dget at 1 2. rewrite Hu, Hr. rewrite fetch_token_run, Hv.
  destruct rt as [t|e]; rewrite Ht; destruct r; reflexivity.
Qed.



End RpcProofs.

(** ** Further properties: the REST endpoints *)

(** X4: for an account outside the four demo accounts, the
    [/tools/get_transactions] endpoint sends no login and is the client's
    [get_transactions] without a token, its errors answered as HTTP 500. *)
Theorem rest_get_transactions_unknown_account http shell account_id w :
  assoc_last account_id account_to_user None = None ->
  rest_get_transactions http shell account_id w
  = as_endpoint (get_transactions http shell account_id None w).
Proof.
  intros H. unfold rest_get_transactions, demo_token, try_except, bind. rewrite H.
  cbn [ret token_arg truthy].
  destruct (get_transactions http shell account_id None w) as [w' [j|e]]; [|reflexivity].
  unfold as_endpoint, render, json_response. destruct (json_compliant j); reflexivity.
Qed.

(** X5: for one of the four demo accounts, [/tools/get_transactions] first
    obtains a token with the user name as password; if that raises, it
    goes on without a token. *)
Theorem rest_get_transactions_demo_login http shell account_id username w :
  assoc_last account_id account_to_user None = Some username ->
  rest_get_transactions http shell account_id w
  = match get_valid_token http username username w with
    | (w1, Ok tok) => as_endpoint (get_transactions http shell account_id (token_arg tok) w1)
    | (w1, Raise _) => as_endpoint (get_transactions http shell account_id None w1)
    end.
Proof.
  intros H. unfold rest_get_transactions, demo_token, try_except, bind. rewrite H.
  assert (Hu : truthy_str username = true).
  { unfold account_to_user in H. cbn in H.
    repeat match type of H with
           | context [String.eqb ?a ?b] => destruct (String.eqb a b)
           end; inversion H; reflexivity. }
  rewrite Hu. unfold authenticate, bind.
  destruct (get_valid_token http username username w) as [w1 [tok|e]]; cbn [ret json_get];
    cbn [assoc_last String.eqb Ascii.eqb Bool.eqb].
  - destruct (get_transactions http shell account_id (token_arg tok) w1) as [w' [j|e]];
      [|reflexivity].
    unfold as_endpoint, render, json_response. destruct (json_compliant j); reflexivity.
  - change (token_arg JNull) with (@None string).
    destruct (get_transactions http shell account_id None w1) as [w' [j|e']]; [|reflexivity].
    unfold as_endpoint, render, json_response. destruct (json_compliant j); reflexivity.
Qed.

Lemma get_transactions_raise http shell account_id token w e :
  snd (get_transactions http shell account_id token w) = Raise e ->
  (exists s, e = RuntimeError ("Database query failed: " ++ s))
  \/ (exists hist cls msg, e = OSError cls msg
                            /\ shell hist (cmd_of account_id) = SpawnFailed cls msg).
Proof.
  unfold get_transactions, try_except.
  destruct (_make_request http _ _ _ _ w) as [w1 [j|e1]]; [discriminate|].
  rewrite via_db_run. cbv zeta.
  destruct (shell (w_log w1) (cmd_of account_id)) as [pr|cls msg] eqn:Hs.
  - destruct (negb _); cbn; intros H; inversion H; eauto.
  - cbn. intros H. injection H as <-. right. exists (w_log w1), cls, msg. auto.
Qed.

Lemma demo_token_ok http account_id w :
  exists w1 t, demo_token http account_id w = (w1, Ok t).
Proof.
  unfold demo_token, try_except, ret.
  destruct (assoc_last account_id account_to_user None) as [u|]; [|eauto].
  destruct (truthy_str u); [|eauto].
  destruct (bind _ _ w) as [w1 [t|e]]; eauto.
Qed.

(** X6: [/tools/get_transactions] never lets an exception escape: its
    error answers are HTTP 500, with a detail that is a fallback failure
    ([Database query failed: ...]), the message of the [OSError] raised when
    the fallback's process cannot be started, or the [ValueError] of
    [JSONResponse] on a [NaN] or infinite float; login and primary-request
    failures never surface. *)
Theorem rest_get_transactions_errors http shell account_id w :
  match snd (rest_get_transactions http shell account_id w) with
  | Ok (JSONResponse _) => True
  | Ok (HTTPException status detail) =>
      status = 500%Z
      /\ (prefix "Database query failed: " detail = true
          \/ (exists hist cls, shell hist (cmd_of account_id) = SpawnFailed cls detail)
          \/ detail = json_range_error)
  | Raise _ => False
  end.
Proof.
  unfold rest_get_transactions, try_except, bind at 1.
  destruct (demo_token_ok http account_id w) as (w1 & t & Ht). rewrite Ht.
  unfold bind.
  destruct (get_transactions http shell account_id (token_arg t) w1) as [w2 [j|e]] eqn:E.
  - unfold json_response. destruct (json_compliant j); [exact I|].
    split; [reflexivity|]. right. right. reflexivity.
  - split; [reflexivity|].
    destruct (get_transactions_raise http shell account_id (token_arg t) w1 e)
      as [[s ->]|(hist & cls & msg & -> & Hs)]; [rewrite E; reflexivity| |].
    + left. apply prefix_app.
    + right. left. exists hist, cls. exact Hs.
Qed.

(** X3: [/tools/authenticate_user] answers [status: authenticated] with the
    token held before (possibly [None]) when the form login yields no
    non-empty cookie token (and raises nothing) and the JSON login is not
    answered 200. *)
Theorem rest_authenticate_user_without_token http username password w r1 t r2 :
  token_is_fresh w = false ->
  http (w_log w) (form_login_request username password) = Responded r1 ->
  login_cookie_token r1 = Ok t -> truthy_str t = false ->
  http (w_log w ++ [EvHttp (form_login_request username password)])%list
    (json_login_request username password) = Responded r2 ->
  status_code r2 <> 200%Z ->
  snd (rest_authenticate_user http username password w)
  = Ok (render (JDict [("token", w_token w); ("username", JStr username);
                       ("status", JStr "authenticated")])).
Proof.
  intros Hf H1 Hc Ht H2 Hs.
  unfold rest_authenticate_user, authenticate, try_except, bind at 1 2.
  rewrite get_valid_token_refreshes by exact Hf.
  unfold refresh_token, bind, try_except, gets.
  rewrite refresh_token_body_run. cbv zeta. rewrite H1, Hc, Ht. cbn [log_event w_log].
  rewrite H2. apply Z.eqb_neq in Hs. rewrite Hs.
  unfold json_response, render. cbn -[json_compliant].
  destruct (json_compliant (JDict [("token", w_token w); ("username", JStr username);
                                   ("status", JStr "authenticated")])); reflexivity.
Qed.

(** X2: when the primary request of [get_transactions] succeeds, its
    result is returned and no shell command is run. *)
Theorem get_transactions_primary_success http shell account_id token w j :
  snd (_make_request http "GET" (TRANSACTION_HISTORY_URL ++ "/transactions/" ++ account_id)
         (bearer_headers token) None w) = Ok j ->
  get_transactions http shell account_id token w
  = (log_event (EvHttp (primary_request account_id token)) w, Ok j).
Proof.
  intros H. unfold get_transactions, try_except.
  pose proof (make_request_world http "GET" (TRANSACTION_HISTORY_URL ++ "/transactions/" ++ account_id)
                (bearer_headers token) None w) as Hw.
  destruct (_make_request http _ _ _ _ w) as [w1 r]. cbn in H, Hw. subst r w1. reflexivity.
Qed.

(** ** Witnesses of the further properties *)

Lemma fallback_reads_back_psql_rows_witness :
  forallb plain_row rows_two = true /\
  _get_transactions_via_db shell_psql_rows "1033623433" w0 =
  (log_event (EvShell (cmd_of "1033623433")) w0, Ok (history_json "1033623433" rows_two)).
Proof.
  split; [vm_compute; reflexivity|].
  apply (fallback_reads_back_psql_rows shell_psql_rows "1033623433" rows_two ""%string w0);
    [vm_compute; reflexivity | reflexivity].
Defined.

Lemma get_transactions_primary_success_witness :
  get_transactions http_json_ok shell_fail "1011226111" None w0
  = (log_event (EvHttp (primary_request "1011226111" None)) w0, Ok (JList [])).
Proof.
  apply (get_transactions_primary_success http_json_ok shell_fail "1011226111" None w0 (JList [])).
  reflexivity.
Defined.

Lemma rest_authenticate_user_without_token_witness :
  snd (rest_authenticate_user http_401 "alice" "pw" w0)
  = Ok (render (JDict [("token", JNull); ("username", JStr "alice");
                       ("status", JStr "authenticated")])).
Proof.
  apply (rest_authenticate_user_without_token http_401 "alice" "pw" w0
           (plain_response 401 "Unauthorized") "" (plain_response 401 "Unauthorized"));
    [reflexivity | reflexivity | reflexivity | reflexivity | reflexivity | discriminate].
Defined.

Lemma rest_get_transactions_unknown_account_witness :
  rest_get_transactions http_500 shell_fail "9999999999" w0
  = as_endpoint (get_transactions http_500 shell_fail "9999999999" None w0).
Proof.
  apply (rest_get_transactions_unknown_account http_500 shell_fail "9999999999" w0).
  reflexivity.
Defined.

Lemma rest_get_transactions_demo_login_witness :
  rest_get_transactions http_down shell_fail "1033623433" w0
  = match get_valid_token http_down "alice" "alice" w0 with
    | (w1, Ok tok) => as_endpoint (get_transactions http_down shell_fail "1033623433" (token_arg tok) w1)
    | (w1, Raise _) => as_endpoint (get_transactions http_down shell_fail "1033623433" None w1)
    end.
Proof.
  apply (rest_get_transactions_demo_login http_down shell_fail "1033623433" "alice" w0).
  reflexivity.
Defined.

Lemma rpc_initialize_witness :
  jsonrpc_handler http_down tool_fails2 tool_fails3 tool_fails2
    (inl (JDict (rpc_body (JInt 1) "initialize" []))) w0
  = (w0, Ok (rpc_result (JInt 1) initialize_result)).
Proof.
  apply (rpc_initialize http_down tool_fails2 tool_fails3 tool_fails2
           (rpc_body (JInt 1) "initialize" []) w0).
  reflexivity.
Defined.

Lemma rpc_missing_id_witness :
  jsonrpc_handler http_down tool_fails2 tool_fails3 tool_fails2
    (inl (JDict (rpc_body (JInt 2) "tools/call"
                   (call_params "get_user_details" [("user_id", JStr "")])))) w0
  = (w0, Ok (rpc_error JNull 400 "Missing user_id")).
Proof.
  apply (rpc_missing_id http_down tool_fails2 tool_fails3 tool_fails2
           (rpc_body (JInt 2) "tools/call" (call_params "get_user_details" [("user_id", JStr "")]))
           (call_params "get_user_details" [("user_id", JStr "")]) [("user_id", JStr "")]
           "get_user_details" "user_id" w0);
    [reflexivity | reflexivity | reflexivity | reflexivity | right; left; reflexivity
    | reflexivity].
Defined.

Lemma rpc_get_transactions_run_witness :
  jsonrpc_handler http_down tool_fails2 tool_fails3 tool_fails2
    (inl (JDict (rpc_body (JInt 3) "tools/call"
                   (call_params "get_transactions" [("account_id", JStr "1011226111")])))) w0
  = (w_login_refused, Ok (rpc_error JNull (-32000) "Database query failed: no pod")).
Proof.
  apply (rpc_get_transactions_run http_down tool_fails2 tool_fails3 tool_fails2
           (rpc_body (JInt 3) "tools/call"
              (call_params "get_transactions" [("account_id", JStr "1011226111")]))
           (call_params "get_transactions" [("account_id", JStr "1011226111")])
           [("account_id", JStr "1011226111")] w0
           w_login_refused (Raise (RuntimeError "Authentication failed: connection refused"))
           w_login_refused (Raise (RuntimeError "Database query failed: no pod")));
    reflexivity.
Defined.

Lemma rpc_unknown_tool_witness :
  jsonrpc_handler http_down tool_fails2 tool_fails3 tool_fails2
    (inl (JDict (rpc_body (JInt 4) "tools/call" (call_params "transfer_funds" [])))) w0
  = (w0, Ok (rpc_error (JInt 4) (-32601) "Unknown tool: transfer_funds")).
Proof.
  apply (rpc_unknown_tool http_down tool_fails2 tool_fails3 tool_fails2
           (rpc_body (JInt 4) "tools/call" (call_params "transfer_funds" []))
           (call_params "transfer_funds" []) w0); reflexivity.
Defined.

Lemma rpc_method_not_found_witness :
  jsonrpc_handler http_down tool_fails2 tool_fails3 tool_fails2
    (inl (JDict (rpc_body (JInt 5) "tools/list" []))) w0
  = (w0, Ok (rpc_error (JInt 5) (-32601) "Method not found")).
Proof.
  apply (rpc_method_not_found http_down tool_fails2 tool_fails3 tool_fails2
           (rpc_body (JInt 5) "tools/list" []) w0); reflexivity.
Defined.

Lemma rpc_lock_account_unchecked_witness :
  jsonrpc_handler http_down tool_fails2 tool_echo3 tool_fails2
    (inl (JDict (rpc_body (JInt 6) "tools/call" (call_params "lock_account" [])))) w0
  = (w_login_refused,
     Ok (rpc_result (JInt 6) (text_content (JDict [("user_id", JNull);
                                                   ("reason", JStr "security")])))).
Proof.
  apply (rpc_lock_account_unchecked http_down tool_fails2 tool_echo3 tool_fails2
           (rpc_body (JInt 6) "tools/call" (call_params "lock_account" []))
           (call_params "lock_account" []) [] w0
           w_login_refused (Raise (RuntimeError "Authentication failed: connection refused"))
           w_login_refused (Ok (JDict [("user_id", JNull); ("reason", JStr "security")])));
    reflexivity.
Defined.

